(** * quvel-ui-tenancy: tenant resolution, caching and visibility filtering

    A shallow embedding of the TypeScript sources of the tenancy plugin
    (cookie-name builders, the visibility filter of [utils.ts], the
    [TenantCacheService], the [TenantResolver] identifier strategies and the
    [TenantRequestHooks] orchestrator), followed by the properties that
    hold of them.

    Conventions of the embedding:
    - a JavaScript object holding JSON data is the finite map of its own
      enumerable properties ([gmap string JsValue]), and its prototype is
      [Object.prototype]: where the sources read or test a property under
      a computed key ([configData[key]], [key in target]) the members it
      inherits are seen ([readFrom], [hasIn]), and where they write one
      ([filtered[key] = ...]) the key [__proto__] reaches the inherited
      setter ([assignProp]); an object whose prototype that setter has
      replaced is taken by its own properties, which is what
      [Object.keys] and serialisation see of it;
    - [undefined] and [null] are values of their own; reading a property
      that is neither own nor inherited gives [JUndefined];
    - a [number] is an integer ([Z]); the sources only test numbers for
      truthiness, compare them, add them and turn them into property keys;
    - strings are sequences of 8-bit characters and [toLowerCase] acts on the
      letters [A-Z];
    - a parameter typed [T | null | undefined] is a [Nullable T];
    - code that may throw returns a [Completion]; code that reads the clock
      or mutates an object takes and returns the state explicitly. *)

From stdpp Require Import gmap strings list fin_maps pretty.
From Stdlib Require Import ZArith Ascii String.

Local Open Scope string_scope.
Local Open Scope Z_scope.

(** ** JavaScript data *)

#[warnings="-register-all"] Inductive JsValue : Type :=
  | JUndefined
  | JNull
  | JBool (b : bool)
  | JNum (z : Z)
  | JStr (s : string)
  | JArr (items : list JsValue)
  | JObj (props : gmap string JsValue)
  | JFunction (name : string)
  | JObjectPrototype.

(** [T | null | undefined] for a typed record [T]. *)
Inductive Nullable (A : Type) : Type :=
  | Undefined
  | Null
  | Val (a : A).
Arguments Undefined {A}.
Arguments Null {A}.
Arguments Val {A} a.

(** An [Error] object with the two fields the not-found policy attaches. *)
Record JsError : Type := mkError {
  message : string;
  code : option Z;
  url : option string
}.

(** Whatever a [throw] carries: an [Error], or any other value. *)
Inductive Thrown : Type :=
  | ThrownError (e : JsError)
  | ThrownValue (v : JsValue).

(** The outcome of running code that may throw. *)
Inductive Completion (A : Type) : Type :=
  | Normal (a : A)
  | Throw (t : Thrown).
Arguments Normal {A} a.
Arguments Throw {A} t.

Definition newError (msg : string) : JsError :=
  {| message := msg; code := None; url := None |}.

(** [String.prototype.toLowerCase]. *)
Definition lower_char (c : ascii) : ascii :=
  let n := N_of_ascii c in
  if ((65 <=? n) && (n <=? 90))%N then ascii_of_N (n + 32) else c.

Fixpoint toLowerCase (s : string) : string :=
  match s with
  | EmptyString => EmptyString
  | String c rest => String (lower_char c) (toLowerCase rest)
  end.

(** [s.split(sep)] for a one-character separator: never empty, and the
    empty string splits into one empty piece. *)
Fixpoint split (sep : ascii) (s : string) : list string :=
  match s with
  | EmptyString => [EmptyString]
  | String c rest =>
      if Ascii.eqb c sep then EmptyString :: split sep rest
      else match split sep rest with
           | piece :: pieces => String c piece :: pieces
           | [] => [String c EmptyString]
           end
  end.

(** [xs[i]] on an array of strings: [undefined] out of range. *)
Definition index (xs : list string) (i : Z) : option string :=
  if i <? 0 then None else xs !! Z.to_nat i.

(** ToBoolean. *)
Definition truthy (v : JsValue) : bool :=
  match v with
  | JUndefined | JNull => false
  | JBool b => b
  | JNum z => negb (z =? 0)
  | JStr s => negb (String.eqb s "")
  | JArr _ | JObj _ | JFunction _ | JObjectPrototype => true
  end.

(** A string is truthy when it is not empty. *)
Definition truthy_string (s : string) : bool := negb (String.eqb s "").

(** ToString, as applied when a value is used as a property key. *)
Fixpoint toString (v : JsValue) : string :=
  match v with
  | JUndefined => "undefined"
  | JNull => "null"
  | JBool true => "true"
  | JBool false => "false"
  | JNum z => pretty z
  | JStr s => s
  | JArr items =>
      String.concat ","
        (map (fun item => match item with
                          | JUndefined | JNull => ""
                          | _ => toString item
                          end) items)
  | JObj _ | JObjectPrototype => "[object Object]"
  | JFunction name => "function " +:+ name +:+ "() { [native code] }"
  end.

(** [typeof v === 'object' && v !== null && !Array.isArray(v)]. *)
Definition isObject (item : JsValue) : bool :=
  match item with
  | JObj _ | JObjectPrototype => true
  | _ => false
  end.

(** [obj.name] for a property name written in the source; none of the
    names the sources write is a member of [Object.prototype]. *)
Definition getProp (obj : gmap string JsValue) (key : string) : JsValue :=
  default JUndefined (obj !! key).

(** The methods of [Object.prototype]. *)
Definition prototypeMethods : list string :=
  ["constructor"; "toString"; "toLocaleString"; "valueOf"; "hasOwnProperty";
   "isPrototypeOf"; "propertyIsEnumerable"; "__defineGetter__";
   "__defineSetter__"; "__lookupGetter__"; "__lookupSetter__"].

(** [Object.prototype[key]] for a key other than [__proto__]; [constructor]
    is the function [Object]. *)
Definition prototypeMember (key : string) : JsValue :=
  if String.eqb key "constructor" then JFunction "Object"
  else if bool_decide (key ∈ prototypeMethods) then JFunction key
  else JUndefined.

(** [key in {}]: the names [Object.prototype] defines, its accessor
    [__proto__] included. *)
Definition isInherited (key : string) : bool :=
  String.eqb key "__proto__" || bool_decide (key ∈ prototypeMethods).

(** [holder[key]] for a computed key, on an object: an own property, else
    the member inherited from [Object.prototype]. The accessor [__proto__]
    gives the prototype of the holder. A holder that is not an object is
    not read this way. *)
Definition readFrom (holder : JsValue) (key : string) : JsValue :=
  match holder with
  | JObj props =>
      match props !! key with
      | Some value => value
      | None =>
          if String.eqb key "__proto__" then JObjectPrototype
          else prototypeMember key
      end
  | JObjectPrototype =>
      if String.eqb key "__proto__" then JNull else prototypeMember key
  | _ => JUndefined
  end.

(** [key in holder], on an object. *)
Definition hasIn (holder : JsValue) (key : string) : bool :=
  match holder with
  | JObj props => bool_decide (is_Some (props !! key)) || isInherited key
  | JObjectPrototype => isInherited key
  | _ => false
  end.

(** [obj[key] = value] for a computed key, as it changes the own
    properties of [obj]. The key [__proto__] reaches the setter inherited
    from [Object.prototype], which writes no own property, unless [obj] has
    an own property of that name. *)
Definition assignProp (obj : gmap string JsValue) (key : string) (value : JsValue)
    : gmap string JsValue :=
  if String.eqb key "__proto__"
  then match obj !! key with
       | Some _ => <[key := value]> obj
       | None => obj
       end
  else <[key := value]> obj.

(** [v ?? fallback]. *)
Definition nullish (v fallback : JsValue) : JsValue :=
  match v with
  | JUndefined | JNull => fallback
  | _ => v
  end.

(** [v?.key] for the keys [xsrf], [session] and [name], none of which is a
    member of a string, number, boolean or array, nor of [Object.prototype];
    a function has a [name]. *)
Definition optGet (v : JsValue) (key : string) : JsValue :=
  match v with
  | JObj props => getProp props key
  | JFunction name => if String.eqb key "name" then JStr name else JUndefined
  | _ => JUndefined
  end.

(** ** types.ts *)

Inductive ConfigVisibility : Type := Public | Protected | Private.

Definition visibilityName (v : ConfigVisibility) : string :=
  match v with
  | Public => "public"
  | Protected => "protected"
  | Private => "private"
  end.

#[warnings="-register-all"] Inductive Tenant : Type :=
  mkTenant (id name identifier : string) (parent_id : option string)
           (is_active is_internal : bool) (config : gmap string JsValue)
           (created_at updated_at : string) (parent : option Tenant).

Definition tenantId (t : Tenant) : string :=
  let 'mkTenant id _ _ _ _ _ _ _ _ _ := t in id.
Definition tenantIdentifier (t : Tenant) : string :=
  let 'mkTenant _ _ identifier _ _ _ _ _ _ _ := t in identifier.
Definition tenantConfig (t : Tenant) : gmap string JsValue :=
  let 'mkTenant _ _ _ _ _ _ config _ _ _ := t in config.

(** [PublicTenantData]; [config] is read through optional chaining and the
    documented calls leave it out, so it is any value. *)
Record PublicTenantData : Type := mkPublicTenantData {
  pubId : string;
  pubName : string;
  pubIdentifier : string;
  pubConfig : JsValue
}.

Inductive TenantResolutionStrategy : Type :=
  | StrategyDomain | StrategyPath | StrategyHeader | StrategySubdomain.

Definition strategyName (s : TenantResolutionStrategy) : string :=
  match s with
  | StrategyDomain => "domain"
  | StrategyPath => "path"
  | StrategyHeader => "header"
  | StrategySubdomain => "subdomain"
  end.

Record TenantStrategyConfig : Type := mkStrategy {
  strategy : TenantResolutionStrategy;
  headerName : option string;
  pathIndex : option Z;
  subdomainLevel : option Z
}.

(** ** cookies.ts *)

(** [tenant?.config]. *)
Definition tenantConfigOf (tenant : Nullable PublicTenantData) : JsValue :=
  match tenant with
  | Val t => pubConfig t
  | _ => JUndefined
  end.

(** [tenant?.id], [None] when it is falsy. *)
Definition tenantIdOf (tenant : Nullable PublicTenantData) : option string :=
  match tenant with
  | Val t => if truthy_string (pubId t) then Some (pubId t) else None
  | _ => None
  end.

Definition createTenantXsrfCookieName (tenant : Nullable PublicTenantData) : JsValue :=
  let cookieConfig := tenantConfigOf tenant in
  let customName := optGet (optGet cookieConfig "xsrf") "name" in
  if truthy customName then customName
  else match tenantIdOf tenant with
       | Some id => JStr ("tenant_" +:+ id +:+ "_xsrf")
       | None => JStr "XSRF-TOKEN"
       end.

Definition createTenantSessionCookieName (tenant : Nullable PublicTenantData) : JsValue :=
  let cookieConfig := tenantConfigOf tenant in
  let customName := optGet (optGet cookieConfig "session") "name" in
  if truthy customName then customName
  else match tenantIdOf tenant with
       | Some id => JStr ("tenant_" +:+ id +:+ "_session")
       | None => JStr "laravel_session"
       end.

(** ** utils.ts: the visibility filter *)

(** The [levels] table of [isVisibilityAllowed]. A key other than the three
    names reads [undefined] (or an inherited member), which no comparison
    with a number satisfies: [None]. *)
Definition levels (key : string) : option Z :=
  if String.eqb key "public" then Some 3
  else if String.eqb key "protected" then Some 2
  else if String.eqb key "private" then Some 1
  else None.

Definition isVisibilityAllowed (fieldVisibility : JsValue)
    (minVisibility : ConfigVisibility) : bool :=
  match levels (toString fieldVisibility), levels (visibilityName minVisibility) with
  | Some field, Some least => least <=? field
  | _, _ => false
  end.

(** [(typeof visValue === 'string' ? visValue.toLowerCase() : visValue) || 'private']. *)
Definition leafLabel (visValue : JsValue) : JsValue :=
  let lowered := match visValue with
                 | JStr s => JStr (toLowerCase s)
                 | _ => visValue
                 end in
  if truthy lowered then lowered else JStr "private".

(** The inner [filterByVisibilityKeys]. The recursion descends the
    visibility tree, so it is written on the tree as a value; the loop over
    [Object.entries(visibility)] is the fold. [configData[key]] is read
    through the prototype of [configData], so that inside the recursion
    [configData] may be [Object.prototype] itself (reached as
    [configData['__proto__']]); [filtered[key] = ...] is [assignProp]. *)
Fixpoint filterByVisibilityKeysIn (minVisibility : ConfigVisibility)
    (visibility configData : JsValue) : gmap string JsValue :=
  match visibility with
  | JObj entries =>
      map_fold (fun key visValue filtered =>
        if isObject visValue then
          let childConfig := readFrom configData key in
          if isObject childConfig then
            let filteredChild :=
              filterByVisibilityKeysIn minVisibility visValue childConfig in
            if (0 <? size filteredChild)%nat
            then assignProp filtered key (JObj filteredChild)
            else filtered
          else filtered
        else
          let vis := leafLabel visValue in
          if isVisibilityAllowed vis minVisibility
          then assignProp filtered key (nullish (readFrom configData key) JNull)
          else filtered) ∅ entries
  | _ => ∅
  end.

Definition filterByVisibilityKeys (minVisibility : ConfigVisibility)
    (visibility : gmap string JsValue) (configData : JsValue) : gmap string JsValue :=
  filterByVisibilityKeysIn minVisibility (JObj visibility) configData.

(** [visibility] may be [null] or [undefined] at run time: [None]. A caller
    that leaves [minVisibility] out gets [Public]. *)
Definition filterConfigByVisibility (config : gmap string JsValue)
    (visibility : option (gmap string JsValue))
    (minVisibility : ConfigVisibility) : gmap string JsValue :=
  let visibilityTree := default ∅ visibility in
  filterByVisibilityKeys minVisibility visibilityTree (JObj config).

Definition visibilityRequired : Thrown :=
  ThrownError (newError "Visibility metadata required to filter public fields").

Definition filterPublicConfig (config : gmap string JsValue)
    (visibility : option (gmap string JsValue)) : Completion (gmap string JsValue) :=
  match visibility with
  | None => Throw visibilityRequired
  | Some tree =>
      if (size tree =? 0)%nat then Throw visibilityRequired
      else Normal (filterConfigByVisibility config visibility Public)
  end.

(** ** services/TenantCacheService.ts *)

Inductive CacheMode : Type := Preload | Lazy | Disabled.

(** [expiresAt]: a time in milliseconds, or [Infinity]. *)
Inductive Expiry : Type :=
  | At (ms : Z)
  | Infinity.

Record CacheEntry : Type := mkEntry {
  tenant : Tenant;
  expiresAt : Expiry
}.

Module TenantCacheService.

Record t : Type := mk {
  cache : gmap string CacheEntry;
  mode : CacheMode;
  ttl : Z;
  endpointPrefix : string;
  cleanupInterval : bool
}.

(** The constructor: the time to live is kept in milliseconds. *)
Definition new (mode : CacheMode) (ttlSeconds : Z) (endpointPrefix : string) : t :=
  {| cache := ∅; mode := mode; ttl := ttlSeconds * 1000;
     endpointPrefix := endpointPrefix; cleanupInterval := false |}.

Definition withCache (self : t) (c : gmap string CacheEntry) : t :=
  {| cache := c; mode := mode self; ttl := ttl self;
     endpointPrefix := endpointPrefix self;
     cleanupInterval := cleanupInterval self |}.

(** [now > expiresAt]. *)
Definition isPast (now : Z) (e : Expiry) : bool :=
  match e with
  | At ms => ms <? now
  | Infinity => false
  end.

(** [get(key)] at clock reading [now]: the result and the service after. *)
Definition get (key : string) (now : Z) (self : t) : option Tenant * t :=
  match mode self with
  | Disabled => (None, self)
  | _ =>
      match cache self !! key with
      | None => (None, self)
      | Some entry =>
          match mode self with
          | Lazy =>
              if isPast now (expiresAt entry)
              then (None, withCache self (delete key (cache self)))
              else (Some (tenant entry), self)
          | _ => (Some (tenant entry), self)
          end
      end
  end.

(** [set(key, tenant)] at clock reading [now]. *)
Definition set (key : string) (tenant : Tenant) (now : Z) (self : t) : t :=
  match mode self with
  | Disabled => self
  | _ =>
      let expiresAt := match mode self with
                       | Preload => Infinity
                       | _ => At (now + ttl self)
                       end in
      withCache self (<[key := {| tenant := tenant; expiresAt := expiresAt |}]> (cache self))
  end.

Definition clear (self : t) : t := withCache self ∅.

Definition startCleanupInterval (self : t) : t :=
  {| cache := cache self; mode := mode self; ttl := ttl self;
     endpointPrefix := endpointPrefix self; cleanupInterval := true |}.

(** One tick of the sweep. *)
Definition cleanupExpired (now : Z) (self : t) : t :=
  withCache self
    (filter (fun kv => isPast now (expiresAt kv.2) = false) (cache self)).

Definition destroy (self : t) : t :=
  {| cache := ∅; mode := mode self; ttl := ttl self;
     endpointPrefix := endpointPrefix self; cleanupInterval := false |}.

Definition delete (key : string) (self : t) : t :=
  withCache self (base.delete key (cache self)).

End TenantCacheService.

(** ** The request, as the services read and write it *)

Record QuvelContext : Type := mkContext {
  startTime : Z;
  ctxTenant : Nullable Tenant;
  appConfig : option (gmap string JsValue)
}.

Record SSRRequest : Type := mkRequest {
  headers : gmap string string;
  hostname : string;
  path : string;
  requestUrl : string;
  quvelContext : option QuvelContext
}.

(** [req.get(name)]: header names are matched in lower case. *)
Definition reqGet (req : SSRRequest) (name : string) : option string :=
  headers req !! toLowerCase name.

(** ** services/TenantResolver.ts *)

Inductive TenantResolutionMode : Type := Gateway | Direct.

Module TenantResolver.

Record t : Type := mk {
  strategyConfig : TenantStrategyConfig;
  resolutionMode : TenantResolutionMode;
  endpointPrefix : string
}.

(** [value.split(':')[0]]. *)
Definition beforeColon (value : string) : string :=
  match split ":" value with
  | first :: _ => first
  | [] => ""
  end.

Definition extractDomain (req : SSRRequest) : string :=
  match reqGet req "x-forwarded-host" with
  | Some forwardedHost =>
      if truthy_string forwardedHost then beforeColon forwardedHost
      else match reqGet req "host" with
           | Some host =>
               if truthy_string host then beforeColon host else hostname req
           | None => hostname req
           end
  | None =>
      match reqGet req "host" with
      | Some host =>
          if truthy_string host then beforeColon host else hostname req
      | None => hostname req
      end
  end.

Definition extractSubdomain (req : SSRRequest) (level : Z) : option string :=
  let hostname := extractDomain req in
  let parts := split "." hostname in
  if Z.of_nat (List.length parts) <=? 2 then None
  else if (0 <=? level) && (level <? Z.of_nat (List.length parts) - 2)
       then index parts level
       else None.

Definition extractFromPath (req : SSRRequest) (idx : Z) : option string :=
  let path := if truthy_string (path req) then path req else requestUrl req in
  let segments :=
    List.filter (fun s => (0 <? String.length s)%nat) (split "/" path) in
  if (0 <=? idx) && (idx <? Z.of_nat (List.length segments))
  then index segments idx
  else None.

Definition extractFromHeader (req : SSRRequest) (headerName : string) : option string :=
  match reqGet req headerName with
  | Some value => if truthy_string value then Some value else None
  | None => None
  end.

(** [x || fallback] for an optional string. *)
Definition orString (x : option string) (fallback : string) : string :=
  match x with
  | Some s => if truthy_string s then s else fallback
  | None => fallback
  end.

Definition extractIdentifier (self : t) (req : SSRRequest) : option string :=
  match strategy (strategyConfig self) with
  | StrategyDomain => Some (extractDomain req)
  | StrategySubdomain =>
      extractSubdomain req (default 0 (subdomainLevel (strategyConfig self)))
  | StrategyPath =>
      extractFromPath req (default 0 (pathIndex (strategyConfig self)))
  | StrategyHeader =>
      extractFromHeader req (orString (headerName (strategyConfig self)) "X-Tenant-ID")
  end.

End TenantResolver.

(** ** services/types.ts *)

Inductive TenantNotFoundAction : Type :=
  | NotFound404
  | NotFoundRedirect (url : string) (code : option Z)
  | NotFoundRender
  | NotFoundCustom (handler : option (SSRRequest -> Completion SSRRequest)).

Record CacheOptions : Type := mkCacheOptions {
  cacheMode : option CacheMode;
  cacheTtl : option Z
}.

Record TenantRequestHooksConfig : Type := mkConfig {
  enabled : bool;
  resolutionMode : option TenantResolutionMode;
  strategyOf : TenantStrategyConfig;
  endpointPrefix : option string;
  cacheOptions : option CacheOptions;
  onTenantNotFound : option TenantNotFoundAction
}.

(** What [resolveTenantByIdentifier] resolves to, at its declared type
    [{tenant: Tenant | null; error?: Error; url?: string}]. *)
Record FetchResult : Type := mkFetchResult {
  resultTenant : option Tenant;
  resultError : option JsError;
  resultUrl : option string
}.

Inductive LogLevel : Type := LogDebug | LogInfo | LogWarning | LogError.

Record LogEntry : Type := mkLog {
  level : LogLevel;
  text : string;
  context : list (string * string)
}.

(** One entry per call made to a collaborator, in the order made. *)
Inductive Call : Type :=
  | CalledExtract
  | CalledCacheGet (key : string)
  | CalledFetch (identifier : string)
  | CalledCacheSet (key : string) (tenant : Tenant).

(** The collaborators of the orchestrator, over the state [Env] they share
    (cache contents, network, clock). Each may throw; awaiting a rejected
    promise is a throw. *)
Record Collaborators (Env : Type) : Type := mkCollaborators {
  dateNow : Env -> Z;
  extractIdentifier : SSRRequest -> Completion (option string);
  cacheGet : string -> Env -> Completion (option Tenant) * Env;
  cacheSet : string -> Tenant -> Env -> Completion unit * Env;
  resolveTenantByIdentifier : string -> Env -> Completion FetchResult * Env
}.
Arguments dateNow {Env} c.
Arguments extractIdentifier {Env} c.
Arguments cacheGet {Env} c.
Arguments cacheSet {Env} c.
Arguments resolveTenantByIdentifier {Env} c.

(** What a request handler can change: the collaborators' state, the log
    and the record of calls. The logger only appends. *)
Record World (Env : Type) : Type := mkWorld {
  env : Env;
  logged : list LogEntry;
  calls : list Call
}.
Arguments mkWorld {Env} env logged calls.
Arguments env {Env} w.
Arguments logged {Env} w.
Arguments calls {Env} w.

Definition M (Env A : Type) : Type := World Env -> Completion A * World Env.

Definition ret {Env A} (a : A) : M Env A := fun w => (Normal a, w).

Definition bind {Env A B} (m : M Env A) (k : A -> M Env B) : M Env B :=
  fun w =>
    match m w with
    | (Normal a, w') => k a w'
    | (Throw t, w') => (Throw t, w')
    end.

Definition throw {Env A} (t : Thrown) : M Env A := fun w => (Throw t, w).

(** [try { body } catch (error) { handler }]. *)
Definition tryCatch {Env A} (body : M Env A) (handler : Thrown -> M Env A) : M Env A :=
  fun w =>
    match body w with
    | (Normal a, w') => (Normal a, w')
    | (Throw t, w') => handler t w'
    end.

Notation "'let*' x ':=' m 'in' k" := (bind m (fun x => k))
  (at level 10, x name, m at level 100, k at level 200).
Notation "m ';;' k" := (bind m (fun _ => k))
  (at level 100, k at level 200, right associativity).

(** ** services/TenantRequestHooks.ts *)

Module TenantRequestHooks.
Section Service.

Context {Env : Type}.
Variable deps : Collaborators Env.
Variable config : TenantRequestHooksConfig.

(** The merge of a resolved tenant into the request context and into the
    window bag ([buildSsrContext], then [buildPublicConfig]). *)
Variable buildSsrContext : SSRRequest -> Tenant -> M Env SSRRequest.
Variable buildPublicConfig :
  SSRRequest -> Tenant -> gmap string JsValue -> M Env (gmap string JsValue).

Definition now : M Env Z := fun w => (Normal (dateNow deps (env w)), w).

Definition log (level : LogLevel) (text : string)
    (context : list (string * string)) : M Env unit :=
  fun w =>
    (Normal tt,
     mkWorld (env w)
             (logged w ++ [{| level := level; text := text; context := context |}])
             (calls w)).

(** Running a collaborator: the call is recorded, then it acts on [Env]. *)
Definition invoke {A} (call : Call) (act : Env -> Completion A * Env) : M Env A :=
  fun w =>
    let '(r, e) := act (env w) in
    (r, mkWorld e (logged w) (calls w ++ [call])).

(** [error instanceof Error ? error.message : 'Unknown error']. *)
Definition errorMessage (error : Thrown) : string :=
  match error with
  | ThrownError e => message e
  | ThrownValue _ => "Unknown error"
  end.

(** The identifier when it is truthy. *)
Definition whenTruthy (identifier : option string) : option string :=
  match identifier with
  | Some s => if truthy_string s then Some s else None
  | None => None
  end.

Definition resolveTenant (req : SSRRequest) : M Env (option Tenant) :=
  let* resolutionStartTime := now in
  tryCatch
    (let* identifier :=
       invoke CalledExtract (fun e => (extractIdentifier deps req, e)) in
     match whenTruthy identifier with
     | None =>
         log LogWarning "Could not extract tenant identifier"
             [("strategy", strategyName (strategy (strategyOf config)))] ;;
         ret None
     | Some identifier =>
         let* tenant := invoke (CalledCacheGet identifier) (cacheGet deps identifier) in
         match tenant with
         | Some tenant =>
             log LogDebug "Tenant resolved from cache"
                 [("identifier", identifier); ("tenantId", tenantId tenant)] ;;
             ret (Some tenant)
         | None =>
             let* result :=
               invoke (CalledFetch identifier)
                      (resolveTenantByIdentifier deps identifier) in
             match resultError result with
             | Some error =>
                 log LogError "Tenant API resolution failed"
                     [("identifier", identifier); ("error", message error)] ;;
                 ret None
             | None =>
                 match resultTenant result with
                 | Some tenant =>
                     invoke (CalledCacheSet identifier tenant)
                            (cacheSet deps identifier tenant) ;;
                     let* finished := now in
                     log LogInfo "Tenant resolved from API"
                         [("identifier", identifier);
                          ("tenantId", tenantId tenant);
                          ("resolutionTime", pretty (finished - resolutionStartTime))] ;;
                     ret (Some tenant)
                 | None =>
                     log LogWarning "Tenant not found" [("identifier", identifier)] ;;
                     ret None
                 end
             end
         end
     end)
    (fun error =>
       log LogError "Tenant resolution failed" [("error", errorMessage error)] ;;
       ret None).

(** [(req.quvelContext as TenantQuvelContext).tenant = value]. *)
Definition setContextTenant (ctx : QuvelContext) (value : Nullable Tenant) : QuvelContext :=
  {| startTime := startTime ctx; ctxTenant := value; appConfig := appConfig ctx |}.

Definition withContext (req : SSRRequest) (ctx : QuvelContext) : SSRRequest :=
  {| headers := headers req; hostname := hostname req; path := path req;
     requestUrl := requestUrl req; quvelContext := Some ctx |}.

(** [action.code || 302]. *)
Definition redirectCode (code : option Z) : Z :=
  match code with
  | Some c => if c =? 0 then 302 else c
  | None => 302
  end.

Definition handleTenantNotFound (req : SSRRequest) (_bag : gmap string JsValue)
    : M Env SSRRequest :=
  let action := default NotFound404 (onTenantNotFound config) in
  match action with
  | NotFound404 =>
      throw (ThrownError {| message := "Tenant not found"; code := Some 404; url := None |})
  | NotFoundRedirect url code =>
      throw (ThrownError {| message := "Redirecting to tenant not found page";
                            code := Some (redirectCode code); url := Some url |})
  | NotFoundRender =>
      let* ctx := match quvelContext req with
                  | Some ctx => ret ctx
                  | None =>
                      let* started := now in
                      ret {| startTime := started; ctxTenant := Undefined;
                             appConfig := None |}
                  end in
      ret (withContext req (setContextTenant ctx Null))
  | NotFoundCustom handler =>
      match handler with
      | Some handler =>
          match handler req with
          | Normal req' => ret req'
          | Throw t => throw t
          end
      | None => ret req
      end
  end.

(** [this.config.onTenantNotFound?.type === 'render']. *)
Definition isRender (action : option TenantNotFoundAction) : bool :=
  match action with
  | Some NotFoundRender => true
  | _ => false
  end.

(** The pre-render hook; the request and the bag it leaves behind are
    returned. *)
Definition enrichWindowBag (req : SSRRequest) (bag : gmap string JsValue)
    : M Env (SSRRequest * gmap string JsValue) :=
  let* tenant := resolveTenant req in
  match tenant with
  | None =>
      if isRender (onTenantNotFound config) then ret (req, bag)
      else
        let* req' := handleTenantNotFound req bag in
        ret (req', bag)
  | Some tenant =>
      let* req' := buildSsrContext req tenant in
      let* bag' := buildPublicConfig req' tenant bag in
      ret (req', bag')
  end.

End Service.

(** The collaborators the constructor wires in: the resolver's own
    [extractIdentifier], the service's own cache, and the network behind
    [resolveTenantByIdentifier]. *)
Record Runtime : Type := mkRuntime {
  cacheService : TenantCacheService.t;
  clock : Z;
  network : string -> Completion FetchResult
}.

Definition wired (resolver : TenantResolver.t) : Collaborators Runtime :=
  {| dateNow := clock;
     extractIdentifier := fun req => Normal (TenantResolver.extractIdentifier resolver req);
     cacheGet := fun key rt =>
       let '(found, service) := TenantCacheService.get key (clock rt) (cacheService rt) in
       (Normal found,
        {| cacheService := service; clock := clock rt; network := network rt |});
     cacheSet := fun key tenant rt =>
       (Normal tt,
        {| cacheService := TenantCacheService.set key tenant (clock rt) (cacheService rt);
           clock := clock rt; network := network rt |});
     resolveTenantByIdentifier := fun identifier rt => (network rt identifier, rt) |}.

End TenantRequestHooks.

(** ** Sample data *)

Definition sampleTenant : Tenant :=
  mkTenant "01K791XPER5WS4YBR34E9WDYF5" "Acme" "acme" None true false ∅
           "2025-01-01" "2025-01-01" None.

(** A request that carries only a [Host] header. *)
Definition requestTo (host : string) : SSRRequest :=
  {| headers := {[ "host" := host ]}; hostname := "localhost"; path := "/";
     requestUrl := "/"; quvelContext := None |}.

Definition subdomainResolver (level : option Z) : TenantResolver.t :=
  TenantResolver.mk
    {| strategy := StrategySubdomain; headerName := None; pathIndex := None;
       subdomainLevel := level |}
    Gateway "tenant-info".

Definition headerResolver : TenantResolver.t :=
  TenantResolver.mk
    {| strategy := StrategyHeader; headerName := None; pathIndex := None;
       subdomainLevel := None |}
    Gateway "tenant-info".

(** A request that carries only an [X-Tenant-ID] header, or no header. *)
Definition requestFor (identifier : option string) : SSRRequest :=
  {| headers := match identifier with
                | Some value => {[ "x-tenant-id" := value ]}
                | None => ∅
                end;
     hostname := "localhost"; path := "/"; requestUrl := "/";
     quvelContext := None |}.

(** A network that cannot be reached. *)
Definition unreachable (identifier : string) : Completion FetchResult :=
  Throw (ThrownError (newError "connect ECONNREFUSED")).

(** A service whose cache already holds [sampleTenant] under [acme]. *)
Definition warmRuntime : TenantRequestHooks.Runtime :=
  {| TenantRequestHooks.cacheService :=
       TenantCacheService.set "acme" sampleTenant 0
         (TenantCacheService.new Lazy 300 "tenant-info");
     TenantRequestHooks.clock := 5;
     TenantRequestHooks.network := unreachable |}.

Definition coldRuntime : TenantRequestHooks.Runtime :=
  {| TenantRequestHooks.cacheService := TenantCacheService.new Lazy 300 "tenant-info";
     TenantRequestHooks.clock := 5;
     TenantRequestHooks.network := unreachable |}.

Definition renderConfig : TenantRequestHooksConfig :=
  {| enabled := true; resolutionMode := Some Gateway;
     strategyOf := TenantResolver.strategyConfig headerResolver;
     endpointPrefix := None; cacheOptions := None;
     onTenantNotFound := Some NotFoundRender |}.

(** ** Vocabulary of the properties *)

(** [hasKeyPath [k1; ...; kn] v]: [v.k1. ... .kn] is a key of [v], reached
    through nested objects. *)
Fixpoint hasKeyPath (keys : list string) (v : JsValue) : bool :=
  match keys with
  | [] => false
  | key :: rest =>
      match v with
      | JObj props =>
          match props !! key with
          | Some child =>
              match rest with
              | [] => true
              | _ => hasKeyPath rest child
              end
          | None => false
          end
      | _ => false
      end
  end.

(** [annotatedPath minVisibility keys tree]: the path follows keys of the
    visibility tree, either to its end, or down to a leaf label that meets
    [minVisibility]; what lies below such a leaf is not annotated key by
    key. *)
Fixpoint annotatedPath (minVisibility : ConfigVisibility) (keys : list string)
    (tree : JsValue) : bool :=
  match keys with
  | [] => false
  | key :: rest =>
      match tree with
      | JObj entries =>
          match entries !! key with
          | Some (JObj childVisibility) =>
              match rest with
              | [] => true
              | _ => annotatedPath minVisibility rest (JObj childVisibility)
              end
          | Some label => isVisibilityAllowed (leafLabel label) minVisibility
          | None => false
          end
      | _ => false
      end
  end.

(** The rank of a level: [private(1) < protected(2) < public(3)]. *)
Definition rank (v : ConfigVisibility) : Z :=
  match v with
  | Public => 3
  | Protected => 2
  | Private => 1
  end.

(** The level a label names, whatever its letter case. *)
Definition namedLevel (s : string) : option ConfigVisibility :=
  if String.eqb (toLowerCase s) "public" then Some Public
  else if String.eqb (toLowerCase s) "protected" then Some Protected
  else if String.eqb (toLowerCase s) "private" then Some Private
  else None.

(** The level a string names, letter for letter. *)
Definition exactLevel (s : string) : option ConfigVisibility :=
  if String.eqb s "public" then Some Public
  else if String.eqb s "protected" then Some Protected
  else if String.eqb s "private" then Some Private
  else None.

(** The level a leaf value of the visibility tree stands for in the
    filter. A string stands for the level it names, whatever its letter
    case; a missing or empty label, like every other falsy value, stands
    for [Private]; any other value stands for the level that its rendering
    as a property key names letter for letter (the array [["public"]]
    renders as [public]); a label that names no level stands for none. *)
Definition labelLevel (label : JsValue) : option ConfigVisibility :=
  match label with
  | JStr s => if String.eqb s "" then Some Private else namedLevel s
  | _ => if truthy label then exactLevel (toString label) else Some Private
  end.

(** The reading under which a label that names no level counts as
    [Private] too. *)
Definition lenientLevel (label : JsValue) : option ConfigVisibility :=
  Some (default Private (labelLevel label)).

Definition meets (level : option ConfigVisibility) (minVisibility : ConfigVisibility) : bool :=
  match level with
  | Some l => rank minVisibility <=? rank l
  | None => false
  end.

(** How [resolveTenant] ends on a fault: with [null], the last thing
    logged being the error that reports what was thrown. *)
Definition normalized (thrown : Thrown) (found : option Tenant)
    (logged : list LogEntry) : Prop :=
  found = None
  /\ last logged
     = Some {| level := LogError; text := "Tenant resolution failed";
               context := [("error", TenantRequestHooks.errorMessage thrown)] |}.

(** Two visibility trees that differ only in the letter case of string
    leaf labels. *)
#[warnings="-register-all"] Inductive caseVariant : JsValue -> JsValue -> Prop :=
  | variant_same v : caseVariant v v
  | variant_label s1 s2 :
      toLowerCase s1 = toLowerCase s2 -> caseVariant (JStr s1) (JStr s2)
  | variant_tree t1 t2 :
      (forall key, option_Forall2 caseVariant (t1 !! key) (t2 !! key)) ->
      caseVariant (JObj t1) (JObj t2).

(** The custom cookie name a tenant declares under [config.<field>.name],
    when there is one and it is truthy (a function in place of the section
    has a name of its own). *)
Definition customName (field : string) (tenant : Nullable PublicTenantData)
    : option JsValue :=
  match tenant with
  | Val t =>
      match pubConfig t with
      | JObj props =>
          match props !! field with
          | Some (JObj section) =>
              match section !! "name" with
              | Some name => if truthy name then Some name else None
              | None => None
              end
          | Some (JFunction name) =>
              if truthy (JStr name) then Some (JStr name) else None
          | _ => None
          end
      | _ => None
      end
  | _ => None
  end.

(** What one turn of the loop of [filterByVisibilityKeys] leaves as the
    own property [filtered[key]], if anything. *)
Definition filteredEntry (minVisibility : ConfigVisibility)
    (configData : JsValue) (key : string) (visValue : JsValue)
    : option JsValue :=
  if String.eqb key "__proto__" then None
  else if isObject visValue then
    let childConfig := readFrom configData key in
    if isObject childConfig then
      let filteredChild :=
        filterByVisibilityKeysIn minVisibility visValue childConfig in
      if (0 <? size filteredChild)%nat then Some (JObj filteredChild) else None
    else None
  else
    if isVisibilityAllowed (leafLabel visValue) minVisibility
    then Some (nullish (readFrom configData key) JNull)
    else None.

(** ** Vocabulary of the further properties *)

(** How deep objects nest in a value. *)
Fixpoint depth (v : JsValue) : nat :=
  match v with
  | JObj props =>
      S (map_fold (fun _ child deepest => Nat.max (depth child) deepest) 0%nat props)
  | _ => 0%nat
  end.

(** [valueAt [k1; ...; kn] v]: the value [v.k1. ... .kn], reached through
    nested objects. *)
Fixpoint valueAt (keys : list string) (v : JsValue) : option JsValue :=
  match keys with
  | [] => Some v
  | key :: rest =>
      match v with
      | JObj props => props !! key ≫= valueAt rest
      | _ => None
      end
  end.

(** Whether a character occurs in a string. *)
Fixpoint hasChar (c : ascii) (s : string) : bool :=
  match s with
  | EmptyString => false
  | String c' rest => Ascii.eqb c' c || hasChar c rest
  end.

(** ** utils.ts: deepMerge *)

(** The one-character strings of a string, in order. *)
Fixpoint characters (s : string) : list JsValue :=
  match s with
  | EmptyString => []
  | String c rest => JStr (String c EmptyString) :: characters rest
  end.

(** Elements filed under their index, as own properties. *)
Definition indexed (items : list JsValue) : gmap string JsValue :=
  list_to_map (imap (fun i item => (pretty i, item)) items).

(** The own enumerable properties of a value: what [{...v}] copies and
    [Object.entries(v)] lists. *)
Definition ownProps (v : JsValue) : gmap string JsValue :=
  match v with
  | JObj props => props
  | JArr items => indexed items
  | JStr s => indexed (characters s)
  | _ => ∅
  end.

(** [deepMerge(target, source)]. The recursion descends [source]; inside
    it [target[key]] may be any value, a member inherited from
    [Object.prototype] included, since [key in target] sees those.
    [Object.assign(output, {[key]: value})] sets [output[key]] as the plain
    assignment does. *)
Fixpoint deepMergeIn (source target : JsValue) : gmap string JsValue :=
  let output := ownProps target in
  if isObject target then
    match source with
    | JObj sourceProps =>
        map_fold (fun key sourceValue output =>
          if isObject sourceValue then
            if hasIn target key
            then assignProp output key
                   (JObj (deepMergeIn sourceValue (readFrom target key)))
            else assignProp output key sourceValue
          else assignProp output key sourceValue) output sourceProps
    | _ => output
    end
  else output.

Definition deepMerge (target source : gmap string JsValue) : gmap string JsValue :=
  deepMergeIn (JObj source) (JObj target).

(** Whether [obj[key] = value] writes an own property of [obj]. *)
Definition settable (obj : gmap string JsValue) (key : string) : bool :=
  negb (String.eqb key "__proto__") || bool_decide (is_Some (obj !! key)).

(** What one turn of the loop of [deepMerge] assigns to [output[key]]. *)
Definition mergedValue (target : JsValue) (key : string) (sourceValue : JsValue)
    : JsValue :=
  if isObject sourceValue && hasIn target key
  then JObj (deepMergeIn sourceValue (readFrom target key))
  else sourceValue.

(** Data in which every nested object is a plain object of its own:
    [Object.prototype] is not among the values. *)
Fixpoint plainData (v : JsValue) : bool :=
  match v with
  | JObj props => map_fold (fun _ child plain => plainData child && plain) true props
  | JObjectPrototype => false
  | _ => true
  end.

(** ** services/TenantCacheService.ts: preloading *)

(** The body of the bulk response, [response.data]: the declared
    [{data: Tenant[]}], a bare [Tenant[]], an empty body (the empty string
    of a response without content), or the body [null]. *)
Inductive TenantsBody : Type :=
  | WrappedTenants (tenants : list Tenant)
  | BareTenants (tenants : list Tenant)
  | FalsyBody
  | NullBody.

(** The tenants a body lists. *)
Definition tenantsOf (body : TenantsBody) : list Tenant :=
  match body with
  | WrappedTenants tenants => tenants
  | BareTenants tenants => tenants
  | FalsyBody | NullBody => []
  end.

(** [response.data.data || response.data || []]: [null] has no [data] to
    read, and the expression throws a [TypeError]. *)
Definition readTenants (body : TenantsBody) : Completion (list Tenant) :=
  match body with
  | NullBody =>
      Throw (ThrownError
               (newError "Cannot read properties of null (reading 'data')"))
  | _ => Normal (tenantsOf body)
  end.

(** [tenant.identifier || tenant.id]. *)
Definition preloadKey (t : Tenant) : string :=
  if truthy_string (tenantIdentifier t) then tenantIdentifier t else tenantId t.

(** What [preloadTenants] reports to the logger (or to the console). *)
Inductive PreloadReport : Type :=
  | Preloaded (count : nat)
  | PreloadFailed (errorMessage : string).

(** [preloadTenants(axiosInstance)]; [axiosGet] is [axiosInstance.get],
    which may throw. *)
Definition preloadTenants (axiosGet : string -> Completion TenantsBody)
    (self : TenantCacheService.t) : TenantCacheService.t * PreloadReport :=
  let failed error :=
    (self,
     PreloadFailed match error with
                   | ThrownError e => message e
                   | ThrownValue _ => "Unknown error"
                   end) in
  match axiosGet ("/" +:+ TenantCacheService.endpointPrefix self +:+ "/cache") with
  | Normal body =>
      match readTenants body with
      | Normal tenants =>
          (TenantCacheService.withCache self
             (foldl (fun cache tenant =>
                       <[preloadKey tenant := {| tenant := tenant; expiresAt := Infinity |}]> cache)
                    (TenantCacheService.cache self) tenants),
           Preloaded (List.length tenants))
      | Throw error => failed error
      end
  | Throw error => failed error
  end.

(** [initialize(axiosInstance)]. *)
Definition initialize (axiosGet : string -> Completion TenantsBody)
    (self : TenantCacheService.t) : TenantCacheService.t :=
  match TenantCacheService.mode self with
  | Preload => fst (preloadTenants axiosGet self)
  | Lazy => TenantCacheService.startCleanupInterval self
  | Disabled => self
  end.

(** ** services/TenantResolver.ts: the fetch *)

(** What [axiosInstance.get(url, {headers})] is called with. *)
Record AxiosRequest : Type := mkAxiosRequest {
  axiosUrl : string;
  axiosHeaders : list (string * string)
}.

(** The body of the response, [response.data]: the declared
    [{data: Tenant}], a bare [Tenant], or the body [null]. Any other body
    (an empty string, an envelope around [null]) is handed on under the
    cast [as Tenant] without being a value of the declared [Tenant] type;
    such a body has no place in this type. *)
Inductive TenantBody : Type :=
  | WrappedTenant (t : Tenant)
  | BareTenant (t : Tenant)
  | NullTenantBody.

(** [response.data.data || response.data]: [null] has no [data] to read,
    and the expression throws a [TypeError]. *)
Definition tenantOf (body : TenantBody) : Completion Tenant :=
  match body with
  | WrappedTenant t => Normal t
  | BareTenant t => Normal t
  | NullTenantBody =>
      Throw (ThrownError
               (newError "Cannot read properties of null (reading 'data')"))
  end.

Definition protectedUrl (self : TenantResolver.t) (identifier : string) : string :=
  match TenantResolver.resolutionMode self with
  | Gateway => "/" +:+ TenantResolver.endpointPrefix self +:+ "/protected"
  | Direct =>
      "https://api." +:+ identifier +:+ "/"
      +:+ TenantResolver.endpointPrefix self +:+ "/protected"
  end.

Module ResolverFetch.

(** [resolveTenantByIdentifier(identifier, axiosInstance)]; [axiosGet] is
    [axiosInstance.get], which may throw. *)
Definition resolveTenantByIdentifier (self : TenantResolver.t) (identifier : string)
    (axiosGet : AxiosRequest -> Completion TenantBody) : FetchResult :=
  let url := protectedUrl self identifier in
  let caught thrown :=
    match thrown with
    | ThrownError error =>
        {| resultTenant := None; resultError := Some error; resultUrl := None |}
    | ThrownValue _ =>
        {| resultTenant := None;
           resultError := Some (newError "Unknown error during tenant resolution");
           resultUrl := None |}
    end in
  match axiosGet {| axiosUrl := url;
                    axiosHeaders := [("X-Tenant-Override", identifier)] |} with
  | Normal body =>
      match tenantOf body with
      | Normal tenant =>
          {| resultTenant := Some tenant; resultError := None; resultUrl := Some url |}
      | Throw thrown => caught thrown
      end
  | Throw thrown => caught thrown
  end.

End ResolverFetch.

(** The runtime of a service whose resolver fetches through [axiosGet]. *)
Definition runtimeOver (resolver : TenantResolver.t)
    (axiosGet : AxiosRequest -> Completion TenantBody)
    (service : TenantCacheService.t) (time : Z) : TenantRequestHooks.Runtime :=
  {| TenantRequestHooks.cacheService := service;
     TenantRequestHooks.clock := time;
     TenantRequestHooks.network := fun identifier =>
       Normal (ResolverFetch.resolveTenantByIdentifier resolver identifier axiosGet) |}.

(** The same runtime at another clock reading. *)
Definition atTime (time : Z) (rt : TenantRequestHooks.Runtime) : TenantRequestHooks.Runtime :=
  {| TenantRequestHooks.cacheService := TenantRequestHooks.cacheService rt;
     TenantRequestHooks.clock := time;
     TenantRequestHooks.network := TenantRequestHooks.network rt |}.

(** A fetch that gave no tenant: it threw, reported an error, or found
    nothing. *)
Definition fetchFailed (outcome : Completion FetchResult) : Prop :=
  match outcome with
  | Normal result => resultError result <> None \/ resultTenant result = None
  | Throw _ => True
  end.

(** ** services/TenantRequestHooks.ts: the merge of a resolved tenant *)

(** [v.key] for the keys read below ([app], [frontend], [session],
    [trace], [cookie], [xsrf_cookie] and the fields of [app] and
    [frontend]), none of which is a member of a string, number, boolean or
    array, nor of [Object.prototype]; a function has a [name]. *)
Definition propOf (v : JsValue) (key : string) : JsValue :=
  match v with
  | JObj props => getProp props key
  | JFunction name => if String.eqb key "name" then JStr name else JUndefined
  | _ => JUndefined
  end.

(** [holder.field = value]. The module is strict code: on a primitive,
    [null] or [undefined] the assignment throws a [TypeError]. (An array, a
    function or [Object.prototype] would take the property; the sections
    written here are declared as plain objects, and any of those in their
    place is outside the model.) *)
Definition assign (holder : JsValue) (field : string) (value : JsValue)
    : Completion JsValue :=
  match holder with
  | JObj props => Normal (JObj (<[field := value]> props))
  | _ => Throw (ThrownError (newError "TypeError: cannot set property"))
  end.

(** [if (source.f !== undefined) holder.f = source.f], field after field. *)
Fixpoint copyDefined (fields : list string) (source holder : JsValue)
    : Completion JsValue :=
  match fields with
  | [] => Normal holder
  | field :: rest =>
      match propOf source field with
      | JUndefined => copyDefined rest source holder
      | value =>
          match assign holder field value with
          | Normal holder' => copyDefined rest source holder'
          | Throw thrown => Throw thrown
          end
      end
  end.

(** One block of [defaultMergeTenantConfig]: [if (tenantConfig[name])],
    give [baseConfig[name]] its initial value when it is falsy, then copy
    the defined fields. *)
Definition mergeSection (name : string) (initial : gmap string JsValue)
    (fields : list string) (tenantConfig baseConfig : gmap string JsValue)
    : Completion (gmap string JsValue) :=
  let source := getProp tenantConfig name in
  if truthy source then
    let base := if truthy (getProp baseConfig name) then baseConfig
                else <[name := JObj initial]> baseConfig in
    match copyDefined fields source (getProp base name) with
    | Normal section => Normal (<[name := section]> base)
    | Throw thrown => Throw thrown
    end
  else Normal baseConfig.

Definition appFields : list string :=
  ["name"; "url"; "env"; "debug"; "timezone"; "locale"; "fallback_locale"].

Definition frontendFields : list string := ["url"; "custom_scheme"].

(** [defaultMergeTenantConfig(baseConfig, tenantConfig)]; the base it
    leaves behind is returned. *)
Definition defaultMergeTenantConfig (baseConfig tenantConfig : gmap string JsValue)
    : Completion (gmap string JsValue) :=
  match mergeSection "app" {[ "name" := JStr ""; "url" := JStr "" ]} appFields
          tenantConfig baseConfig with
  | Normal merged =>
      mergeSection "frontend" {[ "url" := JStr "" ]} frontendFields tenantConfig merged
  | Throw thrown => Throw thrown
  end.

(** [MergeTenantConfigHandler]: it writes into the base it is given, and
    may throw. A handler is taken to leave the tenant config it is handed
    as it is. *)
Definition MergeHandler : Type :=
  gmap string JsValue -> gmap string JsValue -> Completion (gmap string JsValue).

Definition tenantName (t : Tenant) : string :=
  let 'mkTenant _ name _ _ _ _ _ _ _ _ := t in name.
Definition tenantParentId (t : Tenant) : option string :=
  let 'mkTenant _ _ _ parent_id _ _ _ _ _ _ := t in parent_id.
Definition tenantIsActive (t : Tenant) : bool :=
  let 'mkTenant _ _ _ _ is_active _ _ _ _ _ := t in is_active.
Definition tenantIsInternal (t : Tenant) : bool :=
  let 'mkTenant _ _ _ _ _ is_internal _ _ _ _ := t in is_internal.

(** A [Tenant] passed where [PublicTenantData] is expected. *)
Definition asPublicTenantData (t : Tenant) : PublicTenantData :=
  {| pubId := tenantId t; pubName := tenantName t;
     pubIdentifier := tenantIdentifier t; pubConfig := JObj (tenantConfig t) |}.

(** The object written to [config.tenant]. *)
Definition tenantInfo (t : Tenant) (publicTenantConfig : gmap string JsValue) : JsValue :=
  JObj (<[ "id" := JStr (tenantId t) ]>
       (<[ "name" := JStr (tenantName t) ]>
       (<[ "identifier" := JStr (tenantIdentifier t) ]>
       (<[ "parent_id" := match tenantParentId t with
                          | Some parent => JStr parent
                          | None => JNull
                          end ]>
       (<[ "is_active" := JBool (tenantIsActive t) ]>
       (<[ "is_internal" := JBool (tenantIsInternal t) ]>
       (<[ "config" := JObj publicTenantConfig ]> ∅))))))).

Module MergeStage.
Section Stage.

Context {Env : Type}.
Variable deps : Collaborators Env.

(** [this.config.mergeTenantConfig], when one is configured. *)
Variable mergeTenantConfig : option MergeHandler.

Definition lift {A} (c : Completion A) : M Env A := fun w => (c, w).

(** [this.config.mergeTenantConfig || this.defaultMergeTenantConfig]. *)
Definition mergeHandler : MergeHandler :=
  default defaultMergeTenantConfig mergeTenantConfig.

Definition extractPublicTenantConfig (tenant : Tenant) : M Env (gmap string JsValue) :=
  let visibility := getProp (tenantConfig tenant) "__visibility" in
  let configWithoutMeta := delete "__visibility" (tenantConfig tenant) in
  if truthy visibility && (0 <? size (ownProps visibility))%nat then
    lift (filterPublicConfig configWithoutMeta (Some (ownProps visibility)))
  else
    TenantRequestHooks.log LogWarning
      "No __visibility metadata found in tenant.config, skipping config filtering"
      [("tenantId", tenantId tenant)] ;;
    ret ∅.

(** [ensureQuvelContext(req)], as the context the request then has. *)
Definition ensureQuvelContext (req : SSRRequest) : M Env QuvelContext :=
  match quvelContext req with
  | Some ctx => ret ctx
  | None =>
      let* started := TenantRequestHooks.now deps in
      ret {| startTime := started; ctxTenant := Undefined; appConfig := None |}
  end.

(** [if (!config.session) config.session = {}]. *)
Definition ensureSession (config : JsValue) : Completion JsValue :=
  if truthy (propOf config "session") then Normal config
  else assign config "session" (JObj ∅).

(** [config.session.field = value], on the session [config] holds. *)
Definition assignInSession (config : JsValue) (field : string) (value : JsValue)
    : Completion JsValue :=
  match assign (propOf config "session") field value with
  | Normal session => assign config "session" session
  | Throw thrown => Throw thrown
  end.

Definition buildSsrContext (req : SSRRequest) (tenant : Tenant) : M Env SSRRequest :=
  let* ctx := ensureQuvelContext req in
  let appConfig0 := default ∅ (appConfig ctx) in
  let* publicTenantConfig := extractPublicTenantConfig tenant in
  let* merged := lift (mergeHandler appConfig0 publicTenantConfig) in
  let* config1 := lift (ensureSession (JObj merged)) in
  let* config2 :=
    lift (assignInSession config1 "cookie"
            (createTenantSessionCookieName (Val (asPublicTenantData tenant)))) in
  let* config3 :=
    lift (assignInSession config2 "xsrf_cookie"
            (createTenantXsrfCookieName (Val (asPublicTenantData tenant)))) in
  ret (TenantRequestHooks.withContext req
         {| startTime := startTime ctx; ctxTenant := Val tenant;
            appConfig := Some (ownProps config3) |}).

(** [req.quvelContext?.appConfig?.session]. *)
Definition contextSession (req : SSRRequest) : JsValue :=
  match quvelContext req with
  | Some ctx =>
      match appConfig ctx with
      | Some config => getProp config "session"
      | None => JUndefined
      end
  | None => JUndefined
  end.

(** [bag.get('__APP_CONFIG__') || {}]. *)
Definition bagConfig (bag : gmap string JsValue) : JsValue :=
  if truthy (getProp bag "__APP_CONFIG__") then getProp bag "__APP_CONFIG__"
  else JObj ∅.

(** The first block of [buildPublicConfig]: the XSRF cookie name of the
    request context is copied into the payload. *)
Definition copyXsrfCookie (req : SSRRequest) (config : JsValue) : Completion JsValue :=
  if truthy (contextSession req) then
    match ensureSession config with
    | Normal withSession =>
        let xsrf := propOf (contextSession req) "xsrf_cookie" in
        if truthy xsrf then assignInSession withSession "xsrf_cookie" xsrf
        else Normal withSession
    | Throw thrown => Throw thrown
    end
  else Normal config.

(** [mergeHandler(config, publicTenantConfig)] on the payload. A payload
    that is not an object cannot be written to: the handler, or at the
    latest [config.tenant = ...] right after it, throws. *)
Definition mergeInto (config : JsValue) (publicTenantConfig : gmap string JsValue)
    : Completion (gmap string JsValue) :=
  match config with
  | JObj base => mergeHandler base publicTenantConfig
  | _ => Throw (ThrownError (newError "TypeError: cannot set property"))
  end.

(** [if (config.trace) config.trace.tenant = tenant.id]. *)
Definition stampTrace (tenant : Tenant) (config : gmap string JsValue)
    : Completion (gmap string JsValue) :=
  if truthy (getProp config "trace") then
    match assign (getProp config "trace") "tenant" (JStr (tenantId tenant)) with
    | Normal trace => Normal (<[ "trace" := trace ]> config)
    | Throw thrown => Throw thrown
    end
  else Normal config.

(** [if (config.session?.cookie) { const {cookie, ...safeSession} =
    config.session; config.session = safeSession }]. *)
Definition stripSessionCookie (config : gmap string JsValue) : gmap string JsValue :=
  match getProp config "session" with
  | JObj session =>
      if truthy (getProp session "cookie")
      then <[ "session" := JObj (delete "cookie" session) ]> config
      else config
  | _ => config
  end.

(** The payload in the bag and the app config of the request context are
    two objects: writing to one does not change the other. *)
Definition buildPublicConfig (req : SSRRequest) (tenant : Tenant)
    (bag : gmap string JsValue) : M Env (gmap string JsValue) :=
  let config0 := bagConfig bag in
  let* config1 := lift (copyXsrfCookie req config0) in
  let* publicTenantConfig := extractPublicTenantConfig tenant in
  let* config2 := lift (mergeInto config1 publicTenantConfig) in
  let config3 := <[ "tenant" := tenantInfo tenant publicTenantConfig ]> config2 in
  let* config4 := lift (stampTrace tenant config3) in
  let config5 := stripSessionCookie config4 in
  ret (<[ "__APP_CONFIG__" := JObj config5 ]> bag).

End Stage.
End MergeStage.

(** [v !== undefined]. *)
Definition isDefined (v : JsValue) : bool :=
  match v with
  | JUndefined => false
  | _ => true
  end.

(** What a section of the base holds under [field] once
    [defaultMergeTenantConfig] has run: the tenant's value when the
    section is one the tenant config has, the field is one of the
    section's listed [fields] and the tenant defines it; else what the base
    held, the base section starting from [initial] when it was falsy and
    the tenant config has the section. *)
Definition mergedField (name : string) (initial : gmap string JsValue)
    (fields : list string) (tenantConfig baseConfig : gmap string JsValue)
    (field : string) : JsValue :=
  let source := getProp tenantConfig name in
  let current :=
    if truthy source && negb (truthy (getProp baseConfig name))
    then JObj initial
    else getProp baseConfig name in
  if truthy source && bool_decide (field ∈ fields) && isDefined (propOf source field)
  then propOf source field
  else propOf current field.

(** ** More sample data *)

(** A tenant whose config annotates its fields. *)
Definition brandedTenant : Tenant :=
  mkTenant "01K791XPER5WS4YBR34E9WDYF5" "Acme" "acme" None true false
    {[ "app" := JObj {[ "name" := JStr "Acme"; "url" := JStr "https://api.acme.test";
                        "key" := JStr "s3cret" ]};
       "__visibility" :=
         JObj {[ "app" := JObj {[ "name" := JStr "public"; "url" := JStr "public";
                                  "key" := JStr "private" ]} ]} ]}
    "2025-01-01" "2025-01-01" None.

(** A bag whose payload still carries the server's session cookie name. *)
Definition serverBag : gmap string JsValue :=
  {[ "__APP_CONFIG__" :=
       JObj {[ "session" := JObj {[ "cookie" := JStr "laravel_session" ]};
               "trace" := JObj {[ "id" := JStr "t-1" ]} ]} ]}.

(** A backend that knows [acme]. *)
Definition acmeBackend (request : AxiosRequest) : Completion TenantBody :=
  if String.eqb (axiosUrl request) "/tenant-info/protected"
  then Normal (WrappedTenant brandedTenant)
  else Throw (ThrownError (newError "Request failed with status code 404")).

Definition refusing (request : AxiosRequest) : Completion TenantBody :=
  Throw (ThrownError (newError "connect ECONNREFUSED")).

(** The [redirect] policy without a status code. *)
Definition redirectConfig : TenantRequestHooksConfig :=
  {| enabled := true; resolutionMode := Some Gateway;
     strategyOf := TenantResolver.strategyConfig headerResolver;
     endpointPrefix := None; cacheOptions := None;
     onTenantNotFound := Some (NotFoundRedirect "/missing" None) |}.

(** * Properties *)

(** ** The visibility filter *)

Section Filter.

Implicit Types (config visibility : gmap string JsValue) (configData : JsValue).
Implicit Types (minVisibility : ConfigVisibility) (key : string).

Lemma assignProp_setter (obj : gmap string JsValue) value :
  obj !! "__proto__" = None -> assignProp obj "__proto__" value = obj.
Proof. intros Hnone. unfold assignProp. simpl. by rewrite Hnone. Qed.

Lemma assignProp_insert (obj : gmap string JsValue) key value :
  key <> "__proto__" -> assignProp obj key value = <[key := value]> obj.
Proof.
  intros Hkey. unfold assignProp.
  by destruct (String.eqb_spec key "__proto__").
Qed.

(** One turn of the loop, on a [filtered] that has no own [__proto__]. *)
Lemma filter_turn minVisibility configData key visValue
    (filtered : gmap string JsValue) :
  filtered !! "__proto__" = None ->
  (if isObject visValue then
     let childConfig := readFrom configData key in
     if isObject childConfig then
       let filteredChild :=
         filterByVisibilityKeysIn minVisibility visValue childConfig in
       if (0 <? size filteredChild)%nat
       then assignProp filtered key (JObj filteredChild)
       else filtered
     else filtered
   else
     let vis := leafLabel visValue in
     if isVisibilityAllowed vis minVisibility
     then assignProp filtered key (nullish (readFrom configData key) JNull)
     else filtered)
  = match filteredEntry minVisibility configData key visValue with
    | Some v => <[key := v]> filtered
    | None => filtered
    end.
Proof.
  intros Hproto. unfold filteredEntry. cbv zeta.
  destruct (String.eqb_spec key "__proto__") as [-> | Hkey].
  - rewrite !assignProp_setter by done.
    destruct (isObject visValue).
    + destruct (isObject _); [|done]. by destruct (0 <? _)%nat.
    + by destruct (isVisibilityAllowed _ _).
  - rewrite !assignProp_insert by done.
    destruct (isObject visValue).
    + destruct (isObject _); [|done]. by destruct (0 <? _)%nat.
    + by destruct (isVisibilityAllowed _ _).
Qed.

(** The loop writes each key of the visibility tree at most once, and
    never an own [__proto__], so the result can be read key by key. *)
Lemma filterByVisibilityKeys_entries minVisibility visibility configData :
  filterByVisibilityKeys minVisibility visibility configData !! "__proto__" = None
  /\ forall key,
       filterByVisibilityKeys minVisibility visibility configData !! key
       = visibility !! key ≫= filteredEntry minVisibility configData key.
Proof.
  unfold filterByVisibilityKeys. simpl.
  apply (map_fold_weak_ind (fun filtered entries =>
    filtered !! "__proto__" = None
    /\ forall key,
         filtered !! key = entries !! key ≫= filteredEntry minVisibility configData key)).
  - split; [done|]. intros key. by rewrite !lookup_empty.
  - intros k visValue entries filtered Hfresh [Hproto IH].
    assert (Hstep : forall body,
      body = match filteredEntry minVisibility configData k visValue with
             | Some v => <[k := v]> filtered
             | None => filtered
             end ->
      body !! "__proto__" = None
      /\ forall key,
           body !! key = <[k := visValue]> entries !! key
                         ≫= filteredEntry minVisibility configData key).
    { intros body ->. split.
      - destruct (filteredEntry minVisibility configData k visValue) eqn:Hentry;
          [|done].
        rewrite lookup_insert_ne; [done|].
        intros ->. unfold filteredEntry in Hentry. simpl in Hentry. done.
      - intros key. destruct (decide (k = key)) as [-> | Hne].
        + rewrite lookup_insert_eq. simpl.
          destruct (filteredEntry minVisibility configData key visValue).
          * by rewrite lookup_insert_eq.
          * rewrite IH, Hfresh. done.
        + rewrite (lookup_insert_ne entries) by done.
          destruct (filteredEntry minVisibility configData k visValue).
          * by rewrite lookup_insert_ne.
          * apply IH. }
    apply Hstep. by apply filter_turn.
Qed.

Lemma filterByVisibilityKeys_lookup minVisibility visibility configData key :
  filterByVisibilityKeys minVisibility visibility configData !! key
  = visibility !! key ≫= filteredEntry minVisibility configData key.
Proof. apply filterByVisibilityKeys_entries. Qed.

Lemma filterConfigByVisibility_lookup config
    (visibility : option (gmap string JsValue)) minVisibility key :
  filterConfigByVisibility config visibility minVisibility !! key
  = default ∅ visibility !! key ≫= filteredEntry minVisibility (JObj config) key.
Proof. apply filterByVisibilityKeys_lookup. Qed.

Lemma levels_name minVisibility :
  levels (visibilityName minVisibility) = Some (rank minVisibility).
Proof. by destruct minVisibility. Qed.

Lemma isVisibilityAllowed_name level minVisibility :
  isVisibilityAllowed (JStr (visibilityName level)) minVisibility
  = (rank minVisibility <=? rank level).
Proof.
  unfold isVisibilityAllowed. simpl. by rewrite !levels_name.
Qed.

(** The table lookup [levels[fieldVisibility]] goes by the rendering of
    the value as a property key. *)
Lemma isVisibilityAllowed_exact (fieldVisibility : JsValue) minVisibility :
  isVisibilityAllowed fieldVisibility minVisibility
  = meets (exactLevel (toString fieldVisibility)) minVisibility.
Proof.
  unfold isVisibilityAllowed, exactLevel, levels at 1.
  destruct (String.eqb (toString fieldVisibility) "public");
    [by rewrite levels_name|].
  destruct (String.eqb (toString fieldVisibility) "protected");
    [by rewrite levels_name|].
  destruct (String.eqb (toString fieldVisibility) "private");
    [by rewrite levels_name|].
  done.
Qed.

(** The rank comparison of the code is the comparison of the levels that
    labels stand for. *)
Lemma isVisibilityAllowed_label (label : JsValue) minVisibility :
  isVisibilityAllowed (leafLabel label) minVisibility
  = meets (labelLevel label) minVisibility.
Proof.
  destruct label as [| |b|z|s|items|props|name|];
    try apply (isVisibilityAllowed_name Private);
    try apply isVisibilityAllowed_exact.
  - destruct b; [apply isVisibilityAllowed_exact|].
    apply (isVisibilityAllowed_name Private).
  - unfold leafLabel, labelLevel. simpl. destruct (z =? 0); simpl.
    + apply (isVisibilityAllowed_name Private).
    + apply isVisibilityAllowed_exact.
  - unfold leafLabel, labelLevel. simpl.
    destruct s as [|c s].
    + apply (isVisibilityAllowed_name Private).
    + change (String.eqb (String c s) "") with false.
      change (negb (String.eqb (toLowerCase (String c s)) "")) with true.
      cbv iota. apply isVisibilityAllowed_exact.
Qed.

End Filter.

Section FilterClaims.

Implicit Types (config : gmap string JsValue) (configData : JsValue).
Implicit Types (minVisibility : ConfigVisibility) (key : string).

Lemma filtered_paths_annotated minVisibility keys :
  forall (visibility : gmap string JsValue) configData,
    hasKeyPath keys (JObj (filterByVisibilityKeys minVisibility visibility configData)) = true ->
    annotatedPath minVisibility keys (JObj visibility) = true.
Proof.
  induction keys as [|key rest IH]; intros visibility configData; [done|].
  cbn [hasKeyPath annotatedPath].
  rewrite filterByVisibilityKeys_lookup.
  destruct (visibility !! key) as [visValue|]; [|done].
  cbn [mbind option_bind]. unfold filteredEntry.
  destruct (String.eqb key "__proto__"); [done|].
  destruct visValue as [| | | | | |childVisibility| |];
    try (cbn [isObject]; by destruct (isVisibilityAllowed _ _)).
  - cbn [isObject]. destruct (isObject _); [|done].
    cbv zeta. destruct (0 <? _)%nat; [|done].
    destruct rest as [|key' rest']; [done|].
    apply IH.
  - cbn [isObject]. destruct (isObject _); [|done]. done.
Qed.

(** C1, as amended: every key path of the result follows keys of the
    visibility tree, until it ends or until it passes a leaf label that
    meets the minimum level; below such a leaf the config value is taken
    whole. In particular every top-level key of the result is a key of
    the visibility tree. *)
Theorem filtered_keys_are_annotated config
    (visibility : option (gmap string JsValue)) minVisibility keys :
  hasKeyPath keys (JObj (filterConfigByVisibility config visibility minVisibility)) = true ->
  annotatedPath minVisibility keys (JObj (default ∅ visibility)) = true.
Proof. apply filtered_paths_annotated. Qed.

End FilterClaims.

Lemma filtered_keys_are_annotated_witness :
  hasKeyPath ["app"; "url"]
    (JObj (filterConfigByVisibility
             {[ "app" := JObj {[ "url" := JStr "u"; "key" := JStr "s" ]} ]}
             (Some {[ "app" := JObj {[ "url" := JStr "public"; "key" := JStr "private" ]} ]})
             Public)) = true
  /\ annotatedPath Public ["app"; "url"]
       (JObj (default ∅
          (Some {[ "app" := JObj {[ "url" := JStr "public"; "key" := JStr "private" ]} ]})))
     = true.
Proof.
  split.
  - vm_compute. reflexivity.
  - apply (filtered_keys_are_annotated
             {[ "app" := JObj {[ "url" := JStr "u"; "key" := JStr "s" ]} ]}).
    vm_compute. reflexivity.
Defined.

Lemma nested_key_below_leaf_label :
  hasKeyPath ["a"; "b"]
    (JObj (filterConfigByVisibility
             {[ "a" := JObj {[ "b" := JNum 1 ]} ]}
             (Some {[ "a" := JStr "public" ]}) Public)) = true
  /\ hasKeyPath ["a"; "b"] (JObj {[ "a" := JStr "public" ]}) = false.
Proof. split; vm_compute; reflexivity. Qed.

Section LabelClaims.

Implicit Types (config : gmap string JsValue) (visibility : option (gmap string JsValue)).
Implicit Types (minVisibility : ConfigVisibility) (key : string).

(** C2, as amended: a key whose visibility value is a leaf (anything but
    a nested object) is in the result exactly when the level its label
    stands for ranks at least the minimum level and the key is not
    [__proto__], which the filter never writes. The key then holds
    [config[key]], which for a key that config does not have is the member
    inherited from [Object.prototype] when there is one, and [null]
    otherwise. A string label stands for the level it names, in any letter
    case; a missing, empty or otherwise falsy label stands for [private];
    any other leaf stands for the level that its rendering as a property
    key names (the array [["public"]] stands for [public]); and a label
    that names no level stands for none, so that its key is left out at
    every minimum level. *)
Theorem leaf_label_included_iff_rank config visibility minVisibility key label :
  default ∅ visibility !! key = Some label ->
  isObject label = false ->
  filterConfigByVisibility config visibility minVisibility !! key
  = if meets (labelLevel label) minVisibility && negb (String.eqb key "__proto__")
    then Some (nullish (readFrom (JObj config) key) JNull)
    else None.
Proof.
  intros Hkey Hleaf.
  rewrite filterConfigByVisibility_lookup, Hkey. cbn [mbind option_bind].
  rewrite <- (isVisibilityAllowed_label label minVisibility).
  unfold filteredEntry. rewrite Hleaf.
  destruct (String.eqb key "__proto__"); [by rewrite andb_false_r|].
  by rewrite andb_true_r.
Qed.

(** C3: without a visibility tree, or with an empty one, the public
    filter throws, whatever the config; with any other tree it is the
    filter at level [public]. *)
Theorem filterPublicConfig_contract config visibility :
  (visibility = None \/ visibility = Some ∅ ->
   filterPublicConfig config visibility = Throw visibilityRequired)
  /\ (visibility <> None -> visibility <> Some ∅ ->
      filterPublicConfig config visibility
      = Normal (filterConfigByVisibility config visibility Public)).
Proof.
  split.
  - intros [-> | ->]; reflexivity.
  - intros Hsome Hfull. destruct visibility as [tree|]; [|done].
    unfold filterPublicConfig.
    destruct (Nat.eqb_spec (size tree) 0) as [Hsize|]; [|done].
    apply map_size_empty_iff in Hsize. by subst.
Qed.

End LabelClaims.

Lemma leaf_label_included_iff_rank_witness :
  filterConfigByVisibility {[ "url" := JStr "u" ]}
    (Some {[ "url" := JStr "Protected"; "key" := JNull ]}) Protected !! "url"
  = Some (JStr "u")
  /\ filterConfigByVisibility {[ "url" := JStr "u" ]}
       (Some {[ "url" := JArr [JStr "public"] ]}) Public !! "url"
     = Some (JStr "u")
  /\ filterConfigByVisibility {[ "url" := JStr "u" ]}
       (Some {[ "toString" := JStr "public" ]}) Public !! "toString"
     = Some (JFunction "toString").
Proof.
  split; [|split].
  - refine (eq_trans
      (leaf_label_included_iff_rank {[ "url" := JStr "u" ]}
         (Some {[ "url" := JStr "Protected"; "key" := JNull ]})
         Protected "url" (JStr "Protected") _ _) _).
    + vm_compute. reflexivity.
    + reflexivity.
    + vm_compute. reflexivity.
  - refine (eq_trans
      (leaf_label_included_iff_rank {[ "url" := JStr "u" ]}
         (Some {[ "url" := JArr [JStr "public"] ]})
         Public "url" (JArr [JStr "public"]) _ _) _).
    + vm_compute. reflexivity.
    + reflexivity.
    + vm_compute. reflexivity.
  - refine (eq_trans
      (leaf_label_included_iff_rank {[ "url" := JStr "u" ]}
         (Some {[ "toString" := JStr "public" ]})
         Public "toString" (JStr "public") _ _) _).
    + vm_compute. reflexivity.
    + reflexivity.
    + vm_compute. reflexivity.
Defined.

(** A label that names no level is left out even at the minimum level
    [private], where a [private] label is let through. And a [public]
    label does not bring in the key [__proto__], nor [null] for a key that
    config lacks and [Object.prototype] defines. *)
Lemma unrecognized_label_is_not_private :
  meets (lenientLevel (JStr "secret")) Private = true
  /\ filterConfigByVisibility {[ "a" := JNum 1 ]}
       (Some {[ "a" := JStr "secret" ]}) Private !! "a" = None
  /\ filterConfigByVisibility {[ "a" := JNum 1 ]}
       (Some {[ "a" := JStr "private" ]}) Private !! "a" = Some (JNum 1)
  /\ filterConfigByVisibility {[ "__proto__" := JNum 1 ]}
       (Some {[ "__proto__" := JStr "public" ]}) Public !! "__proto__" = None
  /\ filterConfigByVisibility ∅
       (Some {[ "constructor" := JStr "public" ]}) Public !! "constructor"
     = Some (JFunction "Object").
Proof. repeat split; vm_compute; reflexivity. Qed.

Lemma filterPublicConfig_contract_witness :
  filterPublicConfig {[ "app" := JStr "x" ]} None = Throw visibilityRequired
  /\ filterPublicConfig {[ "app" := JStr "x" ]} (Some ∅) = Throw visibilityRequired
  /\ filterPublicConfig {[ "app" := JStr "x" ]} (Some {[ "app" := JStr "public" ]})
     = Normal (filterConfigByVisibility {[ "app" := JStr "x" ]}
                 (Some {[ "app" := JStr "public" ]}) Public).
Proof.
  split; [|split].
  - apply (proj1 (filterPublicConfig_contract {[ "app" := JStr "x" ]} None)).
    left. reflexivity.
  - apply (proj1 (filterPublicConfig_contract {[ "app" := JStr "x" ]} (Some ∅))).
    right. reflexivity.
  - apply (proj2 (filterPublicConfig_contract {[ "app" := JStr "x" ]}
                    (Some {[ "app" := JStr "public" ]}))).
    + discriminate.
    + intros Heq. apply (f_equal (fun o => size (default ∅ o))) in Heq.
      vm_compute in Heq. discriminate.
Defined.

Section CaseClaims.

Implicit Types (config : gmap string JsValue) (configData : JsValue) (key : string).
Implicit Types (minVisibility : ConfigVisibility).

(** Induction on [caseVariant] that also reaches below the keys of a
    tree. *)
Lemma caseVariant_induction (P : JsValue -> JsValue -> Prop) :
  (forall v, P v v) ->
  (forall s1 s2, toLowerCase s1 = toLowerCase s2 -> P (JStr s1) (JStr s2)) ->
  (forall t1 t2 : gmap string JsValue,
     (forall key, option_Forall2 P (t1 !! key) (t2 !! key)) ->
     P (JObj t1) (JObj t2)) ->
  forall v1 v2, caseVariant v1 v2 -> P v1 v2.
Proof.
  intros Hsame Hlabel Htree. fix IH 3.
  intros v1 v2 Hvariant. destruct Hvariant as [v | s1 s2 Hcase | t1 t2 Hkeys].
  - apply Hsame.
  - by apply Hlabel.
  - apply Htree. intros key.
    destruct (Hkeys key) as [x y Hxy|]; constructor.
    by apply IH.
Qed.

Lemma filteredEntry_caseVariant minVisibility v1 v2 :
  caseVariant v1 v2 ->
  forall configData key,
    filteredEntry minVisibility configData key v1
    = filteredEntry minVisibility configData key v2.
Proof.
  intros Hvariant.
  induction Hvariant as [v | s1 s2 Hcase | t1 t2 IH] using caseVariant_induction;
    intros configData key.
  - reflexivity.
  - unfold filteredEntry, leafLabel. cbn [isObject]. by rewrite Hcase.
  - unfold filteredEntry. cbn [isObject].
    assert (Hsame : forall childConfig,
      filterByVisibilityKeysIn minVisibility (JObj t1) childConfig
      = filterByVisibilityKeysIn minVisibility (JObj t2) childConfig).
    { intros childConfig.
      change (filterByVisibilityKeys minVisibility t1 childConfig
              = filterByVisibilityKeys minVisibility t2 childConfig).
      apply map_eq. intros k. rewrite !filterByVisibilityKeys_lookup.
      destruct (IH k) as [x y Hxy|]; [apply Hxy | done]. }
    by rewrite Hsame.
Qed.

(** C9: respelling string leaf labels of the visibility tree in another
    letter case does not change the filtered result, at any minimum
    level and for any config. *)
Theorem filter_ignores_label_case config (tree1 tree2 : gmap string JsValue)
    minVisibility :
  caseVariant (JObj tree1) (JObj tree2) ->
  filterConfigByVisibility config (Some tree1) minVisibility
  = filterConfigByVisibility config (Some tree2) minVisibility.
Proof.
  intros Hvariant. apply map_eq. intros key.
  rewrite !filterConfigByVisibility_lookup. cbn [from_option id].
  assert (Hkeys : forall k, option_Forall2 caseVariant (tree1 !! k) (tree2 !! k)).
  { inversion Hvariant as [v | | t1 t2 Hk]; subst; [|exact Hk].
    intros k. destruct (tree2 !! k); constructor. apply variant_same. }
  destruct (Hkeys key) as [x y Hxy|]; [|done].
  by apply filteredEntry_caseVariant.
Qed.

End CaseClaims.

Lemma filter_ignores_label_case_witness :
  filterConfigByVisibility {[ "app" := JObj {[ "url" := JStr "u" ]} ]}
    (Some {[ "app" := JObj {[ "url" := JStr "PUBLIC" ]} ]}) Public
  = filterConfigByVisibility {[ "app" := JObj {[ "url" := JStr "u" ]} ]}
      (Some {[ "app" := JObj {[ "url" := JStr "public" ]} ]}) Public.
Proof.
  apply (filter_ignores_label_case {[ "app" := JObj {[ "url" := JStr "u" ]} ]}
           {[ "app" := JObj {[ "url" := JStr "PUBLIC" ]} ]}
           {[ "app" := JObj {[ "url" := JStr "public" ]} ]} Public).
  apply variant_tree. intros key.
  destruct (decide (key = "app")) as [-> | Hne].
  - rewrite !lookup_singleton_eq. constructor.
    apply variant_tree. intros key.
    destruct (decide (key = "url")) as [-> | Hne].
    + rewrite !lookup_singleton_eq. constructor. by apply variant_label.
    + rewrite !lookup_singleton_ne by done. constructor.
  - rewrite !lookup_singleton_ne by done. constructor.
Defined.

(** ** Cookie names *)

(** C10, as amended: for every tenant value, [null] and [undefined]
    included, the session cookie name is the tenant's
    [config.session.name] whenever that is truthy (a string under the
    declared cookie settings; any other truthy value is handed back as it
    is), else [tenant_<id>_session] when the tenant has a truthy id, else
    [laravel_session]; the XSRF cookie name likewise with
    [config.xsrf.name], [tenant_<id>_xsrf] and [XSRF-TOKEN]. Both are
    functions of the tenant value alone. *)
Theorem cookie_names tenant :
  createTenantSessionCookieName tenant
  = match customName "session" tenant with
    | Some name => name
    | None =>
        match tenant with
        | Val t =>
            if String.eqb (pubId t) "" then JStr "laravel_session"
            else JStr ("tenant_" +:+ pubId t +:+ "_session")
        | _ => JStr "laravel_session"
        end
    end
  /\ createTenantXsrfCookieName tenant
     = match customName "xsrf" tenant with
       | Some name => name
       | None =>
           match tenant with
           | Val t =>
               if String.eqb (pubId t) "" then JStr "XSRF-TOKEN"
               else JStr ("tenant_" +:+ pubId t +:+ "_xsrf")
           | _ => JStr "XSRF-TOKEN"
           end
       end.
Proof.
  assert (Hname : forall field,
    let name := optGet (optGet (tenantConfigOf tenant) field) "name" in
    customName field tenant = if truthy name then Some name else None).
  { intros field. unfold customName, tenantConfigOf, optGet, getProp.
    destruct tenant as [| |t]; try reflexivity.
    destruct (pubConfig t) as [| | | | | |props|name|]; try reflexivity.
    - destruct (props !! field) as [[| | | | | |section|name|]|]; try reflexivity.
      simpl. destruct (section !! "name"); reflexivity.
    - by destruct (String.eqb field "name"). }
  unfold createTenantSessionCookieName, createTenantXsrfCookieName.
  rewrite !Hname. cbv zeta.
  split.
  - destruct (truthy _); [reflexivity|].
    destruct tenant as [| |t]; try reflexivity.
    unfold tenantIdOf, truthy_string. by destruct (String.eqb (pubId t) "").
  - destruct (truthy _); [reflexivity|].
    destruct tenant as [| |t]; try reflexivity.
    unfold tenantIdOf, truthy_string. by destruct (String.eqb (pubId t) "").
Qed.

(** A custom name that is truthy and not a string is returned as it is,
    not replaced by the id pattern. *)
Lemma truthy_number_is_returned_as_name :
  createTenantSessionCookieName
    (Val {| pubId := "t1"; pubName := "n"; pubIdentifier := "i";
            pubConfig := JObj {[ "session" := JObj {[ "name" := JNum 5 ]} ]} |})
  = JNum 5
  /\ createTenantSessionCookieName
       (Val {| pubId := "t1"; pubName := "n"; pubIdentifier := "i";
               pubConfig := JObj {[ "session" := JObj {[ "name" := JNum 5 ]} ]} |})
     <> JStr "tenant_t1_session".
Proof. split; vm_compute; [reflexivity | discriminate]. Qed.

(** ** The tenant cache *)

Section Cache.

Import TenantCacheService.

Implicit Types (self : t) (key : string) (now later : Z).

Lemma lazy_entry_expiry self key (cached : Tenant) now :
  mode self = Lazy ->
  cache (set key cached now self) !! key
  = Some {| tenant := cached; expiresAt := At (now + ttl self) |}.
Proof.
  intros Hmode. unfold set. rewrite Hmode. simpl. apply lookup_insert_eq.
Qed.

(** C6: in lazy mode [set] stores the tenant with expiry [now + ttl],
    the configured seconds counted in milliseconds; a [get] no later than
    that returns the tenant and leaves the cache as it is, a later one
    returns nothing and removes the entry, so that one entry less
    remains. In preload mode the entry never expires. In disabled mode
    [set] changes nothing and [get] returns nothing. *)
Theorem cache_policy self key (cached : Tenant) now later :
  (forall m ttlSeconds prefix, ttl (new m ttlSeconds prefix) = ttlSeconds * 1000)
  /\ (mode self = Lazy ->
      let stored := set key cached now self in
      cache stored !! key
      = Some {| tenant := cached; expiresAt := At (now + ttl self) |}
      /\ (later <= now + ttl self -> get key later stored = (Some cached, stored))
      /\ (now + ttl self < later ->
          exists after,
            get key later stored = (None, after)
            /\ cache after !! key = None
            /\ S (size (cache after)) = size (cache stored)))
  /\ (mode self = Preload ->
      let stored := set key cached now self in
      cache stored !! key = Some {| tenant := cached; expiresAt := Infinity |}
      /\ get key later stored = (Some cached, stored))
  /\ (mode self = Disabled ->
      set key cached now self = self
      /\ get key later self = (None, self)).
Proof.
  split; [reflexivity|]. split; [|split].
  - intros Hmode stored.
    assert (Hstored : cache stored !! key
              = Some {| tenant := cached; expiresAt := At (now + ttl self) |})
      by (by apply lazy_entry_expiry).
    assert (Hm : mode stored = Lazy)
      by (subst stored; unfold set; by rewrite Hmode).
    split; [exact Hstored|]. split.
    + intros Hfresh. unfold get. rewrite Hm, Hstored. simpl.
      destruct (Z.ltb_spec (now + ttl self) later); [lia | reflexivity].
    + intros Hstale. eexists. unfold get. rewrite Hm, Hstored. simpl.
      destruct (Z.ltb_spec (now + ttl self) later); [|lia].
      split; [reflexivity|]. simpl. split.
      * apply lookup_delete_eq.
      * rewrite map_size_delete, Hstored. simpl.
        assert (size (cache stored) <> 0%nat); [|lia].
        intros Hz. apply map_size_empty_iff in Hz.
        rewrite Hz, lookup_empty in Hstored. discriminate.
  - intros Hmode stored.
    assert (Hstored : cache stored !! key
              = Some {| tenant := cached; expiresAt := Infinity |}).
    { subst stored. unfold set. rewrite Hmode. simpl. apply lookup_insert_eq. }
    assert (Hm : mode stored = Preload)
      by (subst stored; unfold set; by rewrite Hmode).
    split; [exact Hstored|].
    unfold get. by rewrite Hm, Hstored.
  - intros Hmode. unfold set, get. by rewrite Hmode.
Qed.

End Cache.

Lemma cache_policy_witness :
  let lazy := TenantCacheService.new Lazy 1 "tenant-info" in
  let stored := TenantCacheService.set "acme" sampleTenant 0 lazy in
  TenantCacheService.get "acme" 1000 stored = (Some sampleTenant, stored)
  /\ (exists after,
        TenantCacheService.get "acme" 1001 stored = (None, after)
        /\ TenantCacheService.cache after !! "acme" = None
        /\ S (size (TenantCacheService.cache after))
           = size (TenantCacheService.cache stored))
  /\ TenantCacheService.get "acme" 1001
       (TenantCacheService.set "acme" sampleTenant 0
          (TenantCacheService.new Preload 1 "tenant-info"))
     = (Some sampleTenant,
        TenantCacheService.set "acme" sampleTenant 0
          (TenantCacheService.new Preload 1 "tenant-info"))
  /\ TenantCacheService.get "acme" 0
       (TenantCacheService.new Disabled 1 "tenant-info")
     = (None, TenantCacheService.new Disabled 1 "tenant-info").
Proof.
  intros lazy stored.
  destruct (cache_policy lazy "acme" sampleTenant 0 1000) as (_ & Hlazy & _ & _).
  destruct (Hlazy eq_refl) as (_ & Hfresh & _).
  destruct (cache_policy lazy "acme" sampleTenant 0 1001) as (_ & Hlazy' & _ & _).
  destruct (Hlazy' eq_refl) as (_ & _ & Hstale).
  destruct (cache_policy (TenantCacheService.new Preload 1 "tenant-info")
              "acme" sampleTenant 0 1001) as (_ & _ & Hpreload & _).
  destruct (Hpreload eq_refl) as (_ & Hkept).
  destruct (cache_policy (TenantCacheService.new Disabled 1 "tenant-info")
              "acme" sampleTenant 0 0) as (_ & _ & _ & Hdisabled).
  destruct (Hdisabled eq_refl) as (_ & Hnone).
  split; [apply Hfresh; vm_compute; discriminate|].
  split; [apply Hstale; reflexivity|].
  split; [exact Hkept | exact Hnone].
Defined.

(** ** Identifier extraction *)

Section Resolver.

Import TenantResolver.

(** C8, as amended: under the subdomain strategy at level 0, a request
    whose derived host is [a.b.com] yields the identifier [a], and one
    whose derived host is [x.a.b.com] yields [x]; the identifier is absent
    for a host of two labels, such as [b.com]. *)
Theorem subdomain_level_zero (self : t) (req : SSRRequest) :
  strategy (strategyConfig self) = StrategySubdomain ->
  default 0 (subdomainLevel (strategyConfig self)) = 0 ->
  (extractDomain req = "a.b.com" -> extractIdentifier self req = Some "a")
  /\ (extractDomain req = "x.a.b.com" -> extractIdentifier self req = Some "x")
  /\ (extractDomain req = "b.com" -> extractIdentifier self req = None).
Proof.
  intros Hstrategy Hlevel. unfold extractIdentifier, extractSubdomain.
  rewrite Hstrategy, Hlevel.
  repeat split; intros ->; reflexivity.
Qed.

End Resolver.

Lemma subdomain_level_zero_witness :
  TenantResolver.extractIdentifier (subdomainResolver (Some 0)) (requestTo "a.b.com:8080")
  = Some "a"
  /\ TenantResolver.extractIdentifier (subdomainResolver (Some 0)) (requestTo "x.a.b.com")
     = Some "x"
  /\ TenantResolver.extractIdentifier (subdomainResolver (Some 0)) (requestTo "b.com")
     = None.
Proof.
  split; [|split].
  - apply (proj1 (subdomain_level_zero (subdomainResolver (Some 0))
                    (requestTo "a.b.com:8080") eq_refl eq_refl)).
    vm_compute. reflexivity.
  - apply (proj1 (proj2 (subdomain_level_zero (subdomainResolver (Some 0))
                    (requestTo "x.a.b.com") eq_refl eq_refl))).
    vm_compute. reflexivity.
  - apply (proj2 (proj2 (subdomain_level_zero (subdomainResolver (Some 0))
                    (requestTo "b.com") eq_refl eq_refl))).
    vm_compute. reflexivity.
Defined.

(** A host of three labels has a subdomain at level 0: the identifier is
    its first label, not absent. *)
Lemma three_label_host_has_subdomain :
  TenantResolver.extractDomain (requestTo "a.b.com") = "a.b.com"
  /\ TenantResolver.extractIdentifier (subdomainResolver (Some 0)) (requestTo "a.b.com")
     = Some "a"
  /\ TenantResolver.extractIdentifier (subdomainResolver (Some 0)) (requestTo "a.b.com")
     <> None.
Proof. repeat split; vm_compute; (reflexivity || discriminate). Qed.

(** ** The orchestrator *)

Section Orchestrator.

Import TenantRequestHooks.

Context {Env : Type}.
Variable deps : Collaborators Env.
Variable config : TenantRequestHooksConfig.
Variable buildSsrContext : SSRRequest -> Tenant -> M Env SSRRequest.
Variable buildPublicConfig :
  SSRRequest -> Tenant -> gmap string JsValue -> M Env (gmap string JsValue).

(** Closes a path of [resolveTenant]: the run is computed, and each
    assumption about a collaborator either contradicts the path taken or
    names what the path caught. *)
Ltac settled :=
  eexists _, _; split; [reflexivity|]; simpl;
  repeat split; intros; simplify_eq; rewrite ?last_snoc; congruence.

(** C4: whatever the extractor, the cache and the fetch do, throwing
    included, [resolveTenant] completes normally, with a tenant or with
    [null]. When any of them throws (the extractor, the cache lookup, the
    fetch after a miss, or the cache write after a fetch) the fault is
    normalized: the result is [null], and the last thing logged is the
    error [Tenant resolution failed] with the message of what was
    thrown. *)
Theorem resolveTenant_never_throws (req : SSRRequest) (w : World Env) :
  exists (found : option Tenant) (w' : World Env),
    resolveTenant deps config req w = (Normal found, w')
    /\ (forall thrown,
          extractIdentifier deps req = Throw thrown ->
          normalized thrown found (logged w'))
    /\ (forall identifier thrown e1,
          extractIdentifier deps req = Normal (Some identifier) ->
          identifier <> "" ->
          cacheGet deps identifier (env w) = (Throw thrown, e1) ->
          normalized thrown found (logged w'))
    /\ (forall identifier thrown e1 e2,
          extractIdentifier deps req = Normal (Some identifier) ->
          identifier <> "" ->
          cacheGet deps identifier (env w) = (Normal None, e1) ->
          resolveTenantByIdentifier deps identifier e1 = (Throw thrown, e2) ->
          normalized thrown found (logged w'))
    /\ (forall identifier result fetched thrown e1 e2 e3,
          extractIdentifier deps req = Normal (Some identifier) ->
          identifier <> "" ->
          cacheGet deps identifier (env w) = (Normal None, e1) ->
          resolveTenantByIdentifier deps identifier e1 = (Normal result, e2) ->
          resultError result = None ->
          resultTenant result = Some fetched ->
          cacheSet deps identifier fetched e2 = (Throw thrown, e3) ->
          normalized thrown found (logged w')).
Proof.
  unfold normalized, resolveTenant, tryCatch, bind, invoke, log, ret, now. simpl.
  destruct (extractIdentifier deps req) as [[present|]|thrown] eqn:Hextract; simpl;
    [|settled..].
  unfold truthy_string.
  destruct (String.eqb_spec present "") as [Hempty|Hpresent]; simpl; [settled|].
  destruct (cacheGet deps present (env w)) as [[[cached|]|thrown] e1] eqn:Hget;
    simpl; [settled| |settled].
  destruct (resolveTenantByIdentifier deps present e1) as [[result|thrown] e2]
    eqn:Hfetch; simpl; [|settled].
  destruct (resultError result) eqn:Herror; simpl; [settled|].
  destruct (resultTenant result) as [fetched|] eqn:Htenant; simpl; [|settled].
  destruct (cacheSet deps present fetched e2) as [[[]|thrown] e3] eqn:Hset;
    simpl; settled.
Qed.

(** C5: when the cache holds the extracted identifier, [resolveTenant]
    returns the cached record, and the only collaborators it has called
    are the extractor and the cache lookup: the fetch is not called and
    the state is as the lookup left it. *)
Theorem cache_hit_skips_fetch (req : SSRRequest) (w : World Env)
    (identifier : string) (cached : Tenant) (e' : Env) :
  extractIdentifier deps req = Normal (Some identifier) ->
  identifier <> "" ->
  cacheGet deps identifier (env w) = (Normal (Some cached), e') ->
  exists w',
    resolveTenant deps config req w = (Normal (Some cached), w')
    /\ env w' = e'
    /\ calls w' = (calls w ++ [CalledExtract; CalledCacheGet identifier])%list
    /\ forall fetched, CalledFetch fetched ∉ drop (List.length (calls w)) (calls w').
Proof.
  intros Hextract Hpresent Hhit.
  unfold resolveTenant, tryCatch, bind, invoke, log, ret, now. simpl.
  rewrite Hextract. simpl.
  assert (Htruthy : truthy_string identifier = true).
  { unfold truthy_string. by destruct (String.eqb_spec identifier ""). }
  rewrite Htruthy. simpl. rewrite Hhit. simpl.
  eexists. split; [reflexivity|]. simpl.
  split; [reflexivity|]. split; [by rewrite <- app_assoc|].
  intros fetched. rewrite <- app_assoc, drop_app_length. simpl.
  rewrite !elem_of_cons. intros [|[|Hnil]]; try discriminate.
  by apply elem_of_nil in Hnil.
Qed.

(** C7, on the code: under the [render] policy a request that resolves
    to no tenant leaves the hook with the request and the bag as they
    were. The request context is not created and its tenant field is not
    set to [null]; only [handleTenantNotFound], which the hook does not
    reach under this policy, would do that. *)
Theorem render_policy_returns_early (req : SSRRequest)
    (bag : gmap string JsValue) (w w' : World Env) :
  onTenantNotFound config = Some NotFoundRender ->
  resolveTenant deps config req w = (Normal None, w') ->
  enrichWindowBag deps config buildSsrContext buildPublicConfig req bag w
  = (Normal (req, bag), w')
  /\ exists marked,
       handleTenantNotFound deps config req bag w' = (Normal marked, w')
       /\ (ctxTenant <$> quvelContext marked) = Some Null.
Proof.
  intros Hpolicy Hnull. split.
  - unfold enrichWindowBag, bind. rewrite Hnull, Hpolicy. reflexivity.
  - unfold handleTenantNotFound. rewrite Hpolicy. simpl.
    unfold bind, ret, now. destruct (quvelContext req); simpl; eauto.
Qed.

End Orchestrator.

Lemma resolveTenant_never_throws_witness :
  exists w',
    TenantRequestHooks.resolveTenant (TenantRequestHooks.wired headerResolver)
      renderConfig (requestFor (Some "acme")) (mkWorld coldRuntime [] [])
    = (Normal None, w')
    /\ last (logged w')
       = Some {| level := LogError; text := "Tenant resolution failed";
                 context := [("error", "connect ECONNREFUSED")] |}.
Proof.
  destruct (resolveTenant_never_throws (TenantRequestHooks.wired headerResolver)
              renderConfig (requestFor (Some "acme")) (mkWorld coldRuntime [] []))
    as (found & w' & Hrun & _ & _ & Hfetch & _).
  destruct (Hfetch "acme" (ThrownError (newError "connect ECONNREFUSED"))
              coldRuntime coldRuntime) as [-> Hlogged].
  - vm_compute. reflexivity.
  - discriminate.
  - vm_compute. reflexivity.
  - reflexivity.
  - exists w'. split; [exact Hrun | exact Hlogged].
Defined.

Lemma cache_hit_skips_fetch_witness :
  exists w',
    TenantRequestHooks.resolveTenant (TenantRequestHooks.wired headerResolver)
      renderConfig (requestFor (Some "acme")) (mkWorld warmRuntime [] [])
    = (Normal (Some sampleTenant), w')
    /\ env w' = warmRuntime
    /\ calls w' = [CalledExtract; CalledCacheGet "acme"].
Proof.
  destruct (cache_hit_skips_fetch (TenantRequestHooks.wired headerResolver)
              renderConfig (requestFor (Some "acme")) (mkWorld warmRuntime [] [])
              "acme" sampleTenant warmRuntime)
    as (w' & Hresolved & Henv & Hcalls & _).
  - vm_compute. reflexivity.
  - discriminate.
  - vm_compute. reflexivity.
  - exists w'. split; [exact Hresolved|]. split; [exact Henv | exact Hcalls].
Defined.

Lemma render_policy_returns_early_witness :
  let deps := TenantRequestHooks.wired headerResolver in
  let w := mkWorld coldRuntime [] [] in
  let req := requestFor None in
  TenantRequestHooks.enrichWindowBag deps renderConfig
    (fun req _ => ret req) (fun _ _ bag => ret bag) req ∅ w
  = (Normal (req, ∅), snd (TenantRequestHooks.resolveTenant deps renderConfig req w))
  /\ quvelContext req = None.
Proof.
  intros deps w req. split; [|reflexivity].
  apply (render_policy_returns_early deps renderConfig
           (fun req _ => ret req) (fun _ _ bag => ret bag) req ∅ w).
  - reflexivity.
  - vm_compute. reflexivity.
Defined.

(** * Further properties *)

(** ** Induction on the nesting of objects *)

Lemma depth_child (props : gmap string JsValue) key child :
  props !! key = Some child -> (depth child < depth (JObj props))%nat.
Proof.
  cbn [depth]. revert key child.
  apply (map_fold_weak_ind (fun deepest (entries : gmap string JsValue) =>
    forall key child, entries !! key = Some child -> (depth child < S deepest)%nat)).
  - intros key child. by rewrite lookup_empty.
  - intros k v entries deepest Hfresh IH key child.
    destruct (decide (k = key)) as [-> | Hne].
    + rewrite lookup_insert_eq. intros [= ->]. lia.
    + rewrite lookup_insert_ne by done. intros Hchild.
      specialize (IH key child Hchild). lia.
Qed.

Lemma object_induction (P : gmap string JsValue -> Prop) :
  (forall props,
     (forall key child, props !! key = Some (JObj child) -> P child) -> P props) ->
  forall props, P props.
Proof.
  intros Hstep props.
  remember (depth (JObj props)) as n eqn:Hn.
  revert props Hn. induction n as [n IH] using lt_wf_ind. intros props ->.
  apply Hstep. intros key child Hchild.
  apply (IH (depth (JObj child))); [|reflexivity].
  by apply (depth_child props key).
Qed.

(** ** More on the visibility filter *)

Lemma nullish_twice v : nullish (nullish v JNull) JNull = nullish v JNull.
Proof. by destruct v. Qed.

Lemma size_pos_lookup (m : gmap string JsValue) :
  (0 <? size m)%nat = true <-> exists key v, m !! key = Some v.
Proof.
  rewrite Nat.ltb_lt. split.
  - intros Hpos. destruct (map_choose m) as (key & v & Hkv); [|by eauto].
    intros ->. rewrite map_size_empty in Hpos. lia.
  - intros (key & v & Hkv).
    assert (size m <> 0%nat); [|lia].
    intros Hz. apply map_size_empty_iff in Hz. subst.
    by rewrite lookup_empty in Hkv.
Qed.

Lemma prototypeMember_cases key :
  prototypeMember key = JUndefined
  \/ exists name, prototypeMember key = JFunction name.
Proof.
  unfold prototypeMember.
  destruct (String.eqb key "constructor"); [by eauto|].
  destruct (bool_decide _); by eauto.
Qed.

Lemma prototypeMember_not_object key : isObject (prototypeMember key) = false.
Proof. by destruct (prototypeMember_cases key) as [-> | [name ->]]. Qed.

Lemma filter_twice_tree minVisibility :
  forall (visibility : gmap string JsValue) (configData : JsValue),
    filterByVisibilityKeys minVisibility visibility
      (JObj (filterByVisibilityKeys minVisibility visibility configData))
    = filterByVisibilityKeys minVisibility visibility configData.
Proof.
  intros visibility. induction visibility as [visibility IH] using object_induction.
  intros configData. apply map_eq. intros key.
  rewrite (filterByVisibilityKeys_lookup _ _ (JObj _)).
  rewrite filterByVisibilityKeys_lookup.
  destruct (visibility !! key) as [visValue|] eqn:Hvis; [|done].
  cbn [mbind option_bind].
  assert (Hfirst : filterByVisibilityKeys minVisibility visibility configData !! key
                   = filteredEntry minVisibility configData key visValue).
  { by rewrite filterByVisibilityKeys_lookup, Hvis. }
  unfold filteredEntry in *. cbn [readFrom].
  destruct (String.eqb_spec key "__proto__") as [|Hkey]; [done|].
  destruct visValue as [| | | | | |childVisibility| |];
    try (cbn [isObject] in *;
         destruct (isVisibilityAllowed _ _); [|done];
         rewrite Hfirst; by rewrite nullish_twice).
  - cbn [isObject] in *. cbv zeta in *.
    destruct (isObject (readFrom configData key)).
    + destruct (0 <? size (filterByVisibilityKeysIn minVisibility
                             (JObj childVisibility) (readFrom configData key)))%nat
        eqn:Hsize; rewrite Hfirst.
      * cbn [isObject].
        change (filterByVisibilityKeysIn minVisibility (JObj childVisibility))
          with (filterByVisibilityKeys minVisibility childVisibility) in *.
        rewrite (IH key childVisibility Hvis). by rewrite Hsize.
      * by rewrite prototypeMember_not_object.
    + rewrite Hfirst. by rewrite prototypeMember_not_object.
  - cbn [isObject]. cbn [filterByVisibilityKeysIn]. rewrite map_size_empty.
    change (0 <? 0)%nat with false. cbv iota. clear Hfirst.
    by destruct (isObject _), (isObject _).
Qed.

(** X1: filtering is idempotent: filtering a filtered config again, with
    the same visibility tree and minimum level, gives it back unchanged.
    The filtered config is read back as the data it holds, by its own
    properties; a prototype that a [__proto__] annotation made the first
    pass install is not part of that data. *)
Theorem filter_idempotent (config : gmap string JsValue)
    (visibility : option (gmap string JsValue)) (minVisibility : ConfigVisibility) :
  filterConfigByVisibility
    (filterConfigByVisibility config visibility minVisibility) visibility minVisibility
  = filterConfigByVisibility config visibility minVisibility.
Proof. apply filter_twice_tree. Qed.

Lemma isVisibilityAllowed_lower fieldVisibility stricter looser :
  rank looser <= rank stricter ->
  isVisibilityAllowed fieldVisibility stricter = true ->
  isVisibilityAllowed fieldVisibility looser = true.
Proof.
  unfold isVisibilityAllowed. rewrite !levels_name.
  destruct (levels (toString fieldVisibility)); [|done].
  rewrite !Z.leb_le. lia.
Qed.

Lemma filter_lower_tree stricter looser :
  rank looser <= rank stricter ->
  forall (visibility : gmap string JsValue) (configData : JsValue) keys,
    hasKeyPath keys (JObj (filterByVisibilityKeys stricter visibility configData)) = true ->
    hasKeyPath keys (JObj (filterByVisibilityKeys looser visibility configData)) = true.
Proof.
  intros Hrank visibility.
  induction visibility as [visibility IH] using object_induction.
  intros configData [|key rest]; [done|].
  cbn [hasKeyPath]. rewrite !filterByVisibilityKeys_lookup.
  destruct (visibility !! key) as [visValue|] eqn:Hvis; [|done].
  cbn [mbind option_bind]. unfold filteredEntry.
  destruct (String.eqb key "__proto__"); [done|].
  destruct visValue as [| | | | | |childVisibility| |];
    try (cbn [isObject];
         destruct (isVisibilityAllowed _ stricter) eqn:Hallowed; [|done];
         by rewrite (isVisibilityAllowed_lower _ _ _ Hrank Hallowed)).
  - cbn [isObject]. destruct (isObject (readFrom configData key)); [|done].
    cbv zeta.
    change (filterByVisibilityKeysIn ?level (JObj childVisibility))
      with (filterByVisibilityKeys level childVisibility).
    destruct (0 <? size (filterByVisibilityKeys stricter childVisibility
                           (readFrom configData key)))%nat
      eqn:Hsize; [|done].
    assert (Hloose :
      (0 <? size (filterByVisibilityKeys looser childVisibility
                    (readFrom configData key)))%nat = true).
    { apply size_pos_lookup in Hsize as (k & v & Hkv). apply size_pos_lookup.
      pose proof (IH key childVisibility Hvis (readFrom configData key) [k]) as Hk.
      cbn [hasKeyPath] in Hk. rewrite Hkv in Hk. specialize (Hk eq_refl).
      destruct (filterByVisibilityKeys looser childVisibility
                  (readFrom configData key) !! k) eqn:Hl;
        [by eauto | discriminate]. }
    rewrite Hloose. destruct rest as [|key' rest']; [done|].
    apply (IH key childVisibility Hvis).
  - cbn [isObject filterByVisibilityKeysIn]. rewrite map_size_empty.
    by destruct (isObject _).
Qed.

(** X2: lowering the minimum level never hides anything: every key path
    of the result at a stricter level is a key path of the result at a
    looser one. *)
Theorem filter_monotone (config : gmap string JsValue)
    (visibility : option (gmap string JsValue))
    (stricter looser : ConfigVisibility) (keys : list string) :
  rank looser <= rank stricter ->
  hasKeyPath keys (JObj (filterConfigByVisibility config visibility stricter)) = true ->
  hasKeyPath keys (JObj (filterConfigByVisibility config visibility looser)) = true.
Proof. intros Hrank. by apply filter_lower_tree. Qed.

(** What a leaf copies: a value the config has under the key, or [null],
    or a method inherited from [Object.prototype]. *)
Lemma leaf_value_origin (configData : JsValue) key rest :
  key <> "__proto__" ->
  match rest with
  | [] => true
  | _ :: _ => hasKeyPath rest (nullish (readFrom configData key) JNull)
  end = true ->
  hasKeyPath (key :: rest) configData = true
  \/ valueAt rest (nullish (readFrom configData key) JNull) = Some JNull
  \/ exists name,
       valueAt rest (nullish (readFrom configData key) JNull) = Some (JFunction name).
Proof.
  assert (Hmember : forall rest',
    match rest' with
    | [] => true
    | _ :: _ => hasKeyPath rest' (nullish (prototypeMember key) JNull)
    end = true ->
    valueAt rest' (nullish (prototypeMember key) JNull) = Some JNull
    \/ exists name,
         valueAt rest' (nullish (prototypeMember key) JNull) = Some (JFunction name)).
  { intros rest'.
    destruct (prototypeMember_cases key) as [-> | [name ->]];
      destruct rest' as [|k r]; cbn [nullish valueAt hasKeyPath];
      try done; by eauto. }
  intros Hkey. cbn [hasKeyPath].
  destruct configData as [| | | | | |props| |]; cbn [readFrom];
    try (destruct rest as [|k r]; cbn [nullish valueAt hasKeyPath];
         try done; by eauto).
  - destruct (props !! key) as [own|].
    + destruct rest as [|k r]; [by left|].
      destruct own; cbn [nullish]; try done; by left.
    + destruct (String.eqb_spec key "__proto__"); [done|].
      intros Hpath. right. by apply Hmember.
  - destruct (String.eqb_spec key "__proto__"); [done|].
    intros Hpath. right. by apply Hmember.
Qed.

Lemma filter_keys_tree minVisibility keys :
  forall (visibility : gmap string JsValue) (configData : JsValue),
    hasKeyPath keys (JObj (filterByVisibilityKeys minVisibility visibility configData)) = true ->
    hasKeyPath keys configData = true
    \/ valueAt keys (JObj (filterByVisibilityKeys minVisibility visibility configData))
       = Some JNull
    \/ exists name,
         valueAt keys (JObj (filterByVisibilityKeys minVisibility visibility configData))
         = Some (JFunction name).
Proof.
  induction keys as [|key rest IH]; intros visibility configData; [done|].
  cbn [hasKeyPath valueAt]. rewrite filterByVisibilityKeys_lookup.
  destruct (visibility !! key) as [visValue|]; [|done].
  cbn [mbind option_bind]. unfold filteredEntry.
  destruct (String.eqb_spec key "__proto__") as [|Hkey]; [done|].
  destruct visValue as [| | | | | |childVisibility| |];
    try (cbn [isObject]; destruct (isVisibilityAllowed _ _); [|done];
         cbn [mbind option_bind]; by apply (leaf_value_origin configData key rest)).
  - cbn [isObject].
    destruct (isObject (readFrom configData key)) eqn:Hchild; [|done].
    cbv zeta. destruct (0 <? _)%nat; [|done].
    cbn [mbind option_bind].
    assert (Hown : exists props child,
      configData = JObj props /\ props !! key = Some child
      /\ readFrom configData key = child).
    { destruct configData as [| | | | | |props| |]; try discriminate.
      - cbn [readFrom] in *. destruct (props !! key) as [child|] eqn:Hown;
          [by eauto|].
        destruct (String.eqb_spec key "__proto__"); [done|].
        by rewrite prototypeMember_not_object in Hchild.
      - cbn [readFrom] in Hchild. destruct (String.eqb_spec key "__proto__"); [done|].
        by rewrite prototypeMember_not_object in Hchild. }
    destruct Hown as (props & child & -> & Hown & Hread).
    rewrite Hread. cbn [hasKeyPath]. rewrite Hown.
    destruct rest as [|key' rest']; [by left|].
    apply (IH childVisibility child).
  - cbn [isObject filterByVisibilityKeysIn]. rewrite map_size_empty.
    by destruct (isObject _).
Qed.

(** X3: the filter invents no keys: every key path of the result is a key
    path of the config, except where an annotated key is missing from the
    config: the result then holds [null] there, or the method that the
    config inherits from [Object.prototype] when the key names one. *)
Theorem filter_keys_from_config (config : gmap string JsValue)
    (visibility : option (gmap string JsValue)) (minVisibility : ConfigVisibility)
    (keys : list string) :
  hasKeyPath keys (JObj (filterConfigByVisibility config visibility minVisibility)) = true ->
  hasKeyPath keys (JObj config) = true
  \/ valueAt keys (JObj (filterConfigByVisibility config visibility minVisibility))
     = Some JNull
  \/ exists name,
       valueAt keys (JObj (filterConfigByVisibility config visibility minVisibility))
       = Some (JFunction name).
Proof. apply filter_keys_tree. Qed.

(** X4: a config field that the visibility tree does not name has no
    influence on the result: adding, changing or removing it leaves the
    output as it was. *)
Theorem unannotated_field_is_invisible (config : gmap string JsValue)
    (visibility : option (gmap string JsValue)) (minVisibility : ConfigVisibility)
    (field : string) (value : JsValue) :
  default ∅ visibility !! field = None ->
  filterConfigByVisibility (<[field := value]> config) visibility minVisibility
  = filterConfigByVisibility config visibility minVisibility
  /\ filterConfigByVisibility (delete field config) visibility minVisibility
     = filterConfigByVisibility config visibility minVisibility.
Proof.
  intros Hfree.
  assert (Hsame : forall other : gmap string JsValue,
    (forall key, key <> field -> other !! key = config !! key) ->
    filterConfigByVisibility other visibility minVisibility
    = filterConfigByVisibility config visibility minVisibility).
  { intros other Hagree. apply map_eq. intros key.
    rewrite !filterConfigByVisibility_lookup.
    destruct (default ∅ visibility !! key) as [visValue|] eqn:Hvis; [|done].
    cbn [mbind option_bind].
    assert (Hne : key <> field) by (intros ->; congruence).
    unfold filteredEntry, readFrom. by rewrite (Hagree key Hne). }
  split; apply Hsame; intros key Hne.
  - by apply lookup_insert_ne.
  - by apply lookup_delete_ne.
Qed.

Lemma filter_monotone_witness :
  hasKeyPath ["app"; "url"]
    (JObj (filterConfigByVisibility
             {[ "app" := JObj {[ "url" := JStr "u"; "key" := JStr "s" ]} ]}
             (Some {[ "app" := JObj {[ "url" := JStr "public"; "key" := JStr "private" ]} ]})
             Private)) = true.
Proof.
  apply (filter_monotone _ _ Public Private).
  - vm_compute. discriminate.
  - vm_compute. reflexivity.
Defined.

Lemma filter_keys_from_config_witness :
  hasKeyPath ["theme"] (JObj {[ "app" := JStr "x" ]}) = true
  \/ valueAt ["theme"]
       (JObj (filterConfigByVisibility {[ "app" := JStr "x" ]}
                (Some {[ "theme" := JStr "public" ]}) Public))
     = Some JNull
  \/ exists name,
       valueAt ["theme"]
         (JObj (filterConfigByVisibility {[ "app" := JStr "x" ]}
                  (Some {[ "theme" := JStr "public" ]}) Public))
       = Some (JFunction name).
Proof.
  apply (filter_keys_from_config {[ "app" := JStr "x" ]}
           (Some {[ "theme" := JStr "public" ]}) Public ["theme"]).
  vm_compute. reflexivity.
Defined.

Lemma unannotated_field_is_invisible_witness :
  filterConfigByVisibility
    (<[ "secret" := JStr "s" ]> {[ "app" := JStr "x" ]})
    (Some {[ "app" := JStr "public" ]}) Public
  = filterConfigByVisibility {[ "app" := JStr "x" ]}
      (Some {[ "app" := JStr "public" ]}) Public.
Proof.
  refine (proj1 (unannotated_field_is_invisible {[ "app" := JStr "x" ]}
                   (Some {[ "app" := JStr "public" ]}) Public "secret" (JStr "s") _)).
  vm_compute. reflexivity.
Defined.

(** ** More on the tenant cache *)

Section CacheMore.

Import TenantCacheService.

Implicit Types (self : t) (key other : string) (now later swept : Z).

Lemma get_result self key now :
  fst (get key now self)
  = match mode self with
    | Disabled => None
    | Lazy =>
        match cache self !! key with
        | Some entry => if isPast now (expiresAt entry) then None else Some (tenant entry)
        | None => None
        end
    | Preload => tenant <$> cache self !! key
    end.
Proof.
  unfold get. destruct (mode self); try done; destruct (cache self !! key); try done.
  simpl. by destruct (isPast _ _).
Qed.

Lemma get_cache self key now other :
  cache (snd (get key now self)) !! other
  = if decide (other = key)
    then match fst (get key now self) with
         | Some _ => cache self !! key
         | None => match mode self with Lazy => None | _ => cache self !! key end
         end
    else cache self !! other.
Proof.
  unfold get.
  destruct (mode self) eqn:Hmode;
    destruct (cache self !! key) as [entry|] eqn:Hkey; simpl;
    try destruct (isPast now (expiresAt entry)); simpl; rewrite ?Hmode;
    case_decide; subst;
    rewrite ?lookup_delete_eq, ?lookup_delete_ne by done; congruence.
Qed.

(** X5: a read never adds an entry and never touches another key: after
    [get(key)] every other key holds what it held, and [key] itself holds
    what it held or, after a lazy eviction, nothing. *)
Theorem get_touches_only_its_key self key now other :
  (other <> key -> cache (snd (get key now self)) !! other = cache self !! other)
  /\ (cache (snd (get key now self)) !! key = cache self !! key
      \/ cache (snd (get key now self)) !! key = None)
  /\ (size (cache (snd (get key now self))) <= size (cache self))%nat.
Proof.
  split; [|split].
  - intros Hne. rewrite get_cache. by case_decide.
  - rewrite get_cache. case_decide; [|done].
    destruct (fst (get key now self)); [by left|].
    destruct (mode self); by eauto.
  - unfold get. destruct (mode self); try done;
      destruct (cache self !! key) as [entry|] eqn:Hkey; try done.
    simpl. destruct (isPast _ _); [|done]. simpl.
    rewrite map_size_delete, Hkey. simpl. lia.
Qed.

(** X6: the last write wins, and a write to one key is not seen by a read
    of another: [set] twice on a key leaves what the second [set] alone
    would leave, and [get] of another key returns what it returned before
    the [set]. *)
Theorem set_last_write_wins self key (first second : Tenant) now later other :
  set key second later (set key first now self) = set key second later self
  /\ (other <> key ->
      fst (get other later (set key second now self)) = fst (get other later self)).
Proof.
  split.
  - unfold set. destruct (mode self) eqn:Hmode; simpl; rewrite ?Hmode; simpl;
      try done; unfold withCache; simpl; by rewrite insert_insert_eq.
  - intros Hne. rewrite !get_result.
    assert (Hmode : mode (set key second now self) = mode self)
      by (unfold set; destruct (mode self) eqn:E; simpl; congruence).
    assert (Hother : cache (set key second now self) !! other = cache self !! other).
    { unfold set. destruct (mode self); simpl; try done;
        apply lookup_insert_ne; congruence. }
    by rewrite Hmode, Hother.
Qed.

(** X7: [delete(key)] makes [key] read as absent at any later time and in
    any mode, and changes no other key; after [clear()] or [destroy()]
    every key reads as absent, and [destroy()] leaves the sweep stopped
    whether or not it was ever started. *)
Theorem removal_is_unconditional self key other now :
  fst (get key now (delete key self)) = None
  /\ (other <> key -> fst (get other now (delete key self)) = fst (get other now self))
  /\ fst (get key now (clear self)) = None
  /\ fst (get key now (destroy self)) = None
  /\ cleanupInterval (destroy self) = false
  /\ destroy (destroy self) = destroy self.
Proof.
  repeat split.
  - rewrite get_result. unfold delete. simpl. rewrite lookup_delete_eq.
    by destruct (mode self).
  - intros Hne. rewrite !get_result. unfold delete. simpl.
    by rewrite lookup_delete_ne.
  - rewrite get_result. simpl. rewrite lookup_empty. by destruct (mode self).
  - rewrite get_result. simpl. rewrite lookup_empty. by destruct (mode self).
Qed.

(** X8: the periodic sweep is invisible to readers: in lazy mode a
    [get] made no earlier than a sweep returns what it would have returned
    had the sweep not run. The sweep removes only entries that a read
    would evict, and keeps all others. *)
Theorem sweep_is_transparent self key swept now :
  mode self = Lazy ->
  swept <= now ->
  fst (get key now (cleanupExpired swept self)) = fst (get key now self)
  /\ (forall entry, cache self !! key = Some entry ->
      isPast swept (expiresAt entry) = false ->
      cache (cleanupExpired swept self) !! key = Some entry).
Proof.
  intros Hmode Hlater. split.
  - rewrite !get_result. simpl. rewrite Hmode.
    destruct (cache self !! key) as [entry|] eqn:Hkey.
    + destruct (isPast swept (expiresAt entry)) eqn:Hswept.
      * rewrite (map_lookup_filter_None_2 _ _ key).
        -- destruct (expiresAt entry) as [ms|]; [|done]. simpl in *.
           apply Z.ltb_lt in Hswept.
           destruct (Z.ltb_spec ms now); [done | lia].
        -- right. intros e He. simpl. congruence.
      * by rewrite (map_lookup_filter_Some_2 _ _ key entry).
    + rewrite (map_lookup_filter_None_2 _ _ key); [done|]. by left.
  - intros entry Hkey Hfresh. simpl.
    by apply map_lookup_filter_Some_2.
Qed.

End CacheMore.

Section Preloading.

Import TenantCacheService.

Lemma preload_fold_lookup (tenants : list Tenant) :
  forall (start : gmap string CacheEntry) key,
    foldl (fun cache tenant =>
             <[preloadKey tenant := {| tenant := tenant; expiresAt := Infinity |}]> cache)
          start tenants !! key
    = match list_find (fun t => preloadKey t = key) (reverse tenants) with
      | Some (_, t) => Some {| tenant := t; expiresAt := Infinity |}
      | None => start !! key
      end.
Proof.
  induction tenants as [|t tenants IH] using rev_ind; intros start key; [done|].
  rewrite foldl_app, reverse_snoc. cbn [foldl list_find].
  case_decide as Hkey.
  - cbn. rewrite <- Hkey. apply lookup_insert_eq.
  - rewrite lookup_insert_ne by done. rewrite IH.
    destruct (list_find _ (reverse tenants)) as [[i t']|]; done.
Qed.

(** X9: after a preload that succeeds, every tenant of the response can
    be read under its identifier (its id when the identifier is empty), at
    any time and without expiry; what is read is a tenant of the response
    filed under that same key, the last one when several share it. When
    the request fails, the cache is left as it was and the failure is
    only reported. *)
Theorem preload_makes_tenants_readable (axiosGet : string -> Completion TenantsBody)
    (self : t) (listed : Tenant) (now : Z) :
  mode self = Preload ->
  (forall body,
     axiosGet ("/" +:+ endpointPrefix self +:+ "/cache") = Normal body ->
     listed ∈ tenantsOf body ->
     exists found,
       fst (get (preloadKey listed) now (initialize axiosGet self)) = Some found
       /\ found ∈ tenantsOf body
       /\ preloadKey found = preloadKey listed)
  /\ (forall thrown,
        axiosGet ("/" +:+ endpointPrefix self +:+ "/cache") = Throw thrown ->
        initialize axiosGet self = self).
Proof.
  intros Hmode. split.
  - intros body Hbody Hlisted. rewrite get_result.
    assert (Hread : readTenants body = Normal (tenantsOf body)).
    { destruct body; try done. by apply elem_of_nil in Hlisted. }
    unfold initialize, preloadTenants. rewrite Hmode, Hbody, Hread. simpl.
    rewrite Hmode.
    rewrite preload_fold_lookup.
    destruct (list_find (fun t => preloadKey t = preloadKey listed)
                (reverse (tenantsOf body))) as [[i found]|] eqn:Hfind.
    + apply list_find_Some in Hfind as (Hi & Hkey & _).
      exists found. split; [done|]. split; [|done].
      apply list_elem_of_lookup_2 in Hi. rewrite elem_of_reverse in Hi. exact Hi.
    + apply list_find_None in Hfind.
      rewrite Forall_forall in Hfind.
      exfalso. apply (Hfind listed); [|done].
      by apply elem_of_reverse.
  - intros thrown Hthrown. unfold initialize, preloadTenants.
    by rewrite Hmode, Hthrown.
Qed.

End Preloading.

Section NullBodies.

(** X27: a response whose body is [null] counts as a failure, not as an
    empty answer: the fetch of one tenant gives an error result without
    tenant and without url, and the preload reports a failure and leaves
    the cache as it was. *)
Theorem null_body_is_a_failure (resolver : TenantResolver.t) (identifier : string)
    (axiosGet : string -> Completion TenantsBody) (self : TenantCacheService.t) :
  (let result :=
     ResolverFetch.resolveTenantByIdentifier resolver identifier
       (fun _ => Normal NullTenantBody) in
   resultTenant result = None /\ resultError result <> None
   /\ resultUrl result = None)
  /\ (axiosGet ("/" +:+ TenantCacheService.endpointPrefix self +:+ "/cache")
      = Normal NullBody ->
      fst (preloadTenants axiosGet self) = self
      /\ exists errorMessage,
           snd (preloadTenants axiosGet self) = PreloadFailed errorMessage).
Proof.
  split.
  - by repeat split.
  - intros Hbody. unfold preloadTenants. rewrite Hbody. cbn [readTenants].
    split; [reflexivity | by eauto].
Qed.

End NullBodies.

(** ** More on identifier extraction *)

Section Splitting.

Lemma split_cons (sep : ascii) (s : string) :
  exists first pieces, split sep s = first :: pieces.
Proof.
  induction s as [|c s (first & pieces & IH)]; cbn [split]; [by eauto|].
  destruct (Ascii.eqb c sep); [by eauto|]. rewrite IH. by eauto.
Qed.

Lemma split_pieces_clean (sep : ascii) (s : string) :
  Forall (fun piece => hasChar sep piece = false) (split sep s).
Proof.
  induction s as [|c s IH]; cbn [split].
  - by repeat constructor.
  - destruct (Ascii.eqb c sep) eqn:Hc; [by constructor|].
    destruct (split sep s) as [|piece pieces].
    { constructor; [|constructor]. cbn [hasChar]. by rewrite Hc. }
    inversion IH as [|? ? Hpiece Hpieces]; subst.
    constructor; [|done]. cbn [hasChar]. by rewrite Hc, Hpiece.
Qed.

Lemma split_first_prefix (sep : ascii) (s : string) :
  match split sep s with
  | first :: _ => exists rest, s = first +:+ rest
  | [] => False
  end.
Proof.
  induction s as [|c s IH]; cbn [split].
  - by exists "".
  - destruct (Ascii.eqb c sep); [by exists (String c s)|].
    destruct (split sep s) as [|piece pieces]; [done|].
    destruct IH as [rest ->]. by exists rest.
Qed.

Lemma index_elem (xs : list string) (i : Z) (x : string) :
  index xs i = Some x -> 0 <= i /\ xs !! Z.to_nat i = Some x.
Proof.
  unfold index. destruct (Z.ltb_spec i 0); [done|]. by split.
Qed.

End Splitting.

Section ResolverMore.

Import TenantResolver.

Lemma beforeColon_clean (value : string) :
  hasChar ":" (beforeColon value) = false
  /\ exists rest, value = beforeColon value +:+ rest.
Proof.
  unfold beforeColon.
  pose proof (split_pieces_clean ":" value) as Hclean.
  pose proof (split_first_prefix ":" value) as Hprefix.
  destruct (split ":" value) as [|first pieces]; [done|].
  split; [|done]. by inversion Hclean.
Qed.

(** X10: a domain taken from a header never carries the port: when the
    forwarded-host header is set it decides the domain, whatever the
    [Host] header says, and otherwise a set [Host] header decides it; the
    domain is then the part of the header before the first colon, and
    holds no colon. *)
Theorem domain_from_header_has_no_port (req : SSRRequest) (value : string) :
  value <> "" ->
  reqGet req "x-forwarded-host" = Some value
  \/ ((reqGet req "x-forwarded-host" = None \/ reqGet req "x-forwarded-host" = Some "")
      /\ reqGet req "host" = Some value) ->
  extractDomain req = beforeColon value
  /\ hasChar ":" (extractDomain req) = false
  /\ exists rest, value = extractDomain req +:+ rest.
Proof.
  intros Hset Hsource.
  assert (Htruthy : truthy_string value = true).
  { unfold truthy_string. by destruct (String.eqb_spec value ""). }
  assert (Hdomain : extractDomain req = beforeColon value).
  { unfold extractDomain.
    destruct Hsource as [-> | [[-> | ->] ->]]; by rewrite ?Htruthy. }
  rewrite Hdomain. split; [done|]. apply beforeColon_clean.
Qed.

(** X11: a subdomain is never taken from the base domain: the identifier
    is the label at [level], counted from the left, exactly when two more
    labels follow it, and absent otherwise; a label holds no dot. *)
Theorem subdomain_is_left_of_base (req : SSRRequest) (level : Z) (label : string) :
  let parts := split "." (extractDomain req) in
  (extractSubdomain req level = Some label
   <-> 0 <= level /\ level + 2 < Z.of_nat (List.length parts)
       /\ parts !! Z.to_nat level = Some label)
  /\ (extractSubdomain req level = Some label -> hasChar "." label = false).
Proof.
  intros parts.
  assert (Hiff : extractSubdomain req level = Some label
                 <-> 0 <= level /\ level + 2 < Z.of_nat (List.length parts)
                     /\ parts !! Z.to_nat level = Some label).
  { unfold extractSubdomain. fold parts. unfold index.
    destruct (Z.leb_spec (Z.of_nat (List.length parts)) 2);
      [split; [done | lia]|].
    destruct (Z.leb_spec 0 level), (Z.ltb_spec level (Z.of_nat (List.length parts) - 2));
      cbn [andb]; try (split; [done | lia]).
    destruct (Z.ltb_spec level 0); [lia|].
    split; [intros ?; repeat split; (done || lia) | by intros (_ & _ & ?)]. }
  split; [exact Hiff|].
  intros Hsome. apply Hiff in Hsome as (_ & _ & Hlabel).
  pose proof (split_pieces_clean "." (extractDomain req)) as Hclean.
  rewrite Forall_forall in Hclean. apply Hclean.
  by apply (list_elem_of_lookup_2 _ (Z.to_nat level)).
Qed.

(** X12: a path segment is never empty and never holds a slash: leading,
    trailing and doubled slashes contribute no segment, and an index
    outside the segments, a negative one included, gives no identifier. *)
Theorem path_segment_is_clean (req : SSRRequest) (idx : Z) (segment : string) :
  extractFromPath req idx = Some segment ->
  segment <> "" /\ hasChar "/" segment = false /\ 0 <= idx.
Proof.
  unfold extractFromPath.
  set (source := if truthy_string (path req) then path req else requestUrl req).
  destruct (_ && _); [|done].
  intros Hsegment. apply index_elem in Hsegment as (Hidx & Hsegment).
  apply list_elem_of_lookup_2, list_elem_of_In, filter_In in Hsegment
    as (Hpiece & Hlength).
  split; [|split; [|done]].
  - intros ->. discriminate.
  - pose proof (split_pieces_clean "/" source) as Hclean.
    rewrite Forall_forall in Hclean. apply Hclean. by apply list_elem_of_In.
Qed.

End ResolverMore.

(** ** More on the orchestrator *)

Section OrchestratorMore.

Import TenantRequestHooks.

Context {Env : Type}.
Variable deps : Collaborators Env.
Variable config : TenantRequestHooksConfig.
Variable buildSsrContext : SSRRequest -> Tenant -> M Env SSRRequest.
Variable buildPublicConfig :
  SSRRequest -> Tenant -> gmap string JsValue -> M Env (gmap string JsValue).

(** The calls added to the record since [w], one by one. *)
Ltac added_calls :=
  simpl; rewrite <- ?app_assoc, drop_app_length; simpl;
  rewrite ?elem_of_cons, elem_of_nil.

Ltac no_such_call :=
  let Hin := fresh "Hin" in
  intros Hin; repeat (destruct Hin as [Hin|Hin]); (discriminate || contradiction).

Lemma whenTruthy_Some identifier present :
  whenTruthy identifier = Some present <-> identifier = Some present /\ present <> "".
Proof.
  unfold whenTruthy, truthy_string. destruct identifier as [s|].
  - destruct (String.eqb_spec s "") as [-> | Hne]; simpl.
    + split; [done|]. intros [Hs Hp]. congruence.
    + split; [intros Hs | intros [Hs _]]; simplify_eq; done.
  - split; [done | by intros [? _]].
Qed.

(** X14: without an identifier nothing else is consulted: when the
    extractor throws, or gives no identifier or an empty one,
    [resolveTenant] returns [null] having called neither the cache nor the
    fetch, and leaves the collaborators' state as it was. *)
Theorem no_identifier_no_lookup (req : SSRRequest) (w : World Env) :
  (exists thrown, extractIdentifier deps req = Throw thrown)
  \/ extractIdentifier deps req = Normal None
  \/ extractIdentifier deps req = Normal (Some "") ->
  exists w',
    resolveTenant deps config req w = (Normal None, w')
    /\ env w' = env w
    /\ calls w' = (calls w ++ [CalledExtract])%list
    /\ List.length (logged w') = S (List.length (logged w)).
Proof.
  intros Hextract.
  unfold resolveTenant, tryCatch, bind, invoke, log, ret, now. simpl.
  destruct Hextract as [[thrown ->] | [-> | ->]]; simpl;
    (eexists; split; [reflexivity|]; simpl;
     rewrite ?length_app; simpl; repeat split; lia).
Qed.

(** X15: only what the backend returned is cached: every [cache.set]
    that [resolveTenant] makes is for the extracted identifier and stores
    the tenant of a fetch for that identifier that completed without an
    error. A fetch that threw, reported an error or found no tenant is
    followed by no [cache.set]. *)
Theorem only_fetched_tenants_are_cached (req : SSRRequest) (w w' : World Env)
    (outcome : Completion (option Tenant)) (key : string) (cached : Tenant) :
  resolveTenant deps config req w = (outcome, w') ->
  CalledCacheSet key cached ∈ drop (List.length (calls w)) (calls w') ->
  extractIdentifier deps req = Normal (Some key)
  /\ exists e1 e2 result,
       resolveTenantByIdentifier deps key e1 = (Normal result, e2)
       /\ resultError result = None
       /\ resultTenant result = Some cached.
Proof.
  unfold resolveTenant, tryCatch, bind, invoke, log, ret, now. simpl.
  destruct (extractIdentifier deps req) as [identifier|thrown] eqn:Hextract; simpl;
    [|intros Hrun; injection Hrun as <- <-; added_calls; no_such_call].
  destruct (whenTruthy identifier) as [present|] eqn:Hpresent; simpl;
    [|intros Hrun; injection Hrun as <- <-; added_calls; no_such_call].
  apply whenTruthy_Some in Hpresent as [-> Hne].
  destruct (cacheGet deps present (env w)) as [[[hit|]|thrown] e1]; simpl;
    [intros Hrun; injection Hrun as <- <-; added_calls; no_such_call | |
     intros Hrun; injection Hrun as <- <-; added_calls; no_such_call].
  destruct (resolveTenantByIdentifier deps present e1) as [[result|thrown] e2] eqn:Hfetch;
    simpl; [|intros Hrun; injection Hrun as <- <-; added_calls; no_such_call].
  destruct (resultError result) eqn:Herror; simpl;
    [intros Hrun; injection Hrun as <- <-; added_calls; no_such_call|].
  destruct (resultTenant result) as [fetched|] eqn:Htenant; simpl;
    [|intros Hrun; injection Hrun as <- <-; added_calls; no_such_call].
  destruct (cacheSet deps present fetched e2) as [[[]|thrown] e3]; simpl;
    intros Hrun; injection Hrun as <- <-; added_calls;
    intros [|[|[|[Hset|[]]]]]; try discriminate;
    injection Hset as -> ->;
    (split; [done|]); by exists e1, e2, result.
Qed.

(** X16: a tenant that [resolveTenant] returns is never made up: it is
    the record the cache held for the extracted identifier, or the record
    a fetch for that identifier returned without an error. *)
Theorem resolved_tenant_has_a_source (req : SSRRequest) (w w' : World Env)
    (found : Tenant) :
  resolveTenant deps config req w = (Normal (Some found), w') ->
  exists identifier,
    extractIdentifier deps req = Normal (Some identifier)
    /\ identifier <> ""
    /\ ((exists e1, cacheGet deps identifier (env w) = (Normal (Some found), e1))
        \/ (exists e1 e2 result,
              cacheGet deps identifier (env w) = (Normal None, e1)
              /\ resolveTenantByIdentifier deps identifier e1 = (Normal result, e2)
              /\ resultError result = None
              /\ resultTenant result = Some found)).
Proof.
  unfold resolveTenant, tryCatch, bind, invoke, log, ret, now. simpl.
  destruct (extractIdentifier deps req) as [identifier|thrown] eqn:Hextract; simpl;
    [|done].
  destruct (whenTruthy identifier) as [present|] eqn:Hpresent; simpl; [|done].
  apply whenTruthy_Some in Hpresent as [-> Hne].
  destruct (cacheGet deps present (env w)) as [[[hit|]|thrown] e1] eqn:Hget; simpl;
    [| |done].
  { intros Hrun; injection Hrun as -> <-. exists present. repeat split; try done. left. by eauto. }
  destruct (resolveTenantByIdentifier deps present e1) as [[result|thrown] e2] eqn:Hfetch;
    simpl; [|done].
  destruct (resultError result) eqn:Herror; simpl; [done|].
  destruct (resultTenant result) as [fetched|] eqn:Htenant; simpl; [|done].
  destruct (cacheSet deps present fetched e2) as [[[]|thrown] e3]; simpl; [|done].
  intros Hrun; injection Hrun as -> <-. exists present. repeat split; try done. right.
  by exists e1, e2, result.
Qed.

(** X17: what the hook does with a request that resolves to no tenant,
    outside the [render] policy: with no policy or the [404] policy it
    throws an error with code 404; with the [redirect] policy it throws an
    error carrying the configured url and code, 302 when no code (or 0) is
    configured; with the [custom] policy it runs the handler, if there is
    one, and lets what that throws through. The bag is never touched. *)
Theorem not_found_dispositions (req : SSRRequest) (bag : gmap string JsValue)
    (w w' : World Env) :
  resolveTenant deps config req w = (Normal None, w') ->
  let hook := enrichWindowBag deps config buildSsrContext buildPublicConfig req bag w in
  (onTenantNotFound config = None \/ onTenantNotFound config = Some NotFound404 ->
   hook = (Throw (ThrownError {| message := "Tenant not found";
                                 code := Some 404; url := None |}), w'))
  /\ (forall target status,
        onTenantNotFound config = Some (NotFoundRedirect target status) ->
        hook = (Throw (ThrownError
                  {| message := "Redirecting to tenant not found page";
                     code := Some (match status with
                                   | Some 0 | None => 302
                                   | Some c => c
                                   end);
                     url := Some target |}), w'))
  /\ (onTenantNotFound config = Some (NotFoundCustom None) ->
      hook = (Normal (req, bag), w'))
  /\ (forall handler,
        onTenantNotFound config = Some (NotFoundCustom (Some handler)) ->
        hook = (match handler req with
                | Normal req' => Normal (req', bag)
                | Throw thrown => Throw thrown
                end, w')).
Proof.
  intros Hnull hook. subst hook.
  unfold enrichWindowBag, bind. rewrite Hnull.
  repeat split.
  - intros [Hpolicy | Hpolicy]; unfold handleTenantNotFound; by rewrite Hpolicy.
  - intros target status Hpolicy. unfold handleTenantNotFound. rewrite Hpolicy.
    simpl. unfold redirectCode. destruct status as [[| |]|]; done.
  - intros Hpolicy. unfold handleTenantNotFound. by rewrite Hpolicy.
  - intros handler Hpolicy. unfold handleTenantNotFound. rewrite Hpolicy. simpl.
    by destruct (handler req).
Qed.

End OrchestratorMore.

(** ** The orchestrator over its own cache *)

Section WiredCache.

Import TenantCacheService.

Lemma get_keeps_settings (self : t) key now :
  mode (snd (get key now self)) = mode self
  /\ ttl (snd (get key now self)) = ttl self.
Proof.
  unfold get. destruct (mode self) eqn:Hmode; [| |done];
    destruct (cache self !! key) as [entry|]; try done.
  simpl. by destruct (isPast _ _).
Qed.

Lemma get_after_set (self : t) key (stored : Tenant) now later :
  mode self <> Disabled ->
  (mode self = Lazy -> later <= now + ttl self) ->
  get key later (set key stored now self) = (Some stored, set key stored now self).
Proof.
  intros Hon Hfresh. unfold get, set.
  destruct (mode self) eqn:Hmode; [| |done]; simpl; rewrite Hmode, lookup_insert_eq.
  - done.
  - simpl. destruct (Z.ltb_spec (now + ttl self) later); [|done].
    specialize (Hfresh eq_refl). lia.
Qed.

End WiredCache.

Section Wired.

Import TenantRequestHooks.

Variable resolver : TenantResolver.t.
Variable config : TenantRequestHooksConfig.

Lemma truthy_string_true (s : string) : s <> "" -> truthy_string s = true.
Proof. unfold truthy_string. by destruct (String.eqb_spec s ""). Qed.

(** X18: a tenant is fetched once and then served from the cache: when
    the cache is not disabled and a lookup misses, a fetch that returns a
    tenant is followed by a [cache.set], and the next request for the same
    identifier, made before the entry expires (at any time in preload
    mode), returns that tenant after calling only the extractor and the
    cache. *)
Theorem fetched_tenant_is_cached (req : SSRRequest) (rt : Runtime)
    (logs : list LogEntry) (trace : list Call)
    (identifier : string) (result : FetchResult) (fetched : Tenant) (later : Z) :
  TenantResolver.extractIdentifier resolver req = Some identifier ->
  identifier <> "" ->
  TenantCacheService.mode (cacheService rt) <> Disabled ->
  fst (TenantCacheService.get identifier (clock rt) (cacheService rt)) = None ->
  network rt identifier = Normal result ->
  resultError result = None ->
  resultTenant result = Some fetched ->
  (TenantCacheService.mode (cacheService rt) = Lazy ->
   later <= clock rt + TenantCacheService.ttl (cacheService rt)) ->
  exists w1 w2,
    resolveTenant (wired resolver) config req (mkWorld rt logs trace)
    = (Normal (Some fetched), w1)
    /\ calls w1 = (trace ++ [CalledExtract; CalledCacheGet identifier;
                             CalledFetch identifier;
                             CalledCacheSet identifier fetched])%list
    /\ resolveTenant (wired resolver) config req
         (mkWorld (atTime later (env w1)) (logged w1) (calls w1))
       = (Normal (Some fetched), w2)
    /\ calls w2 = (calls w1 ++ [CalledExtract; CalledCacheGet identifier])%list.
Proof.
  intros Hextract Hne Hon Hmiss Hnetwork Herror Htenant Hfresh.
  pose proof (get_keeps_settings (cacheService rt) identifier (clock rt)) as [Hmode Httl].
  unfold resolveTenant, tryCatch, bind, invoke, log, ret, now, wired. simpl.
  rewrite Hextract. simpl. rewrite (truthy_string_true _ Hne). simpl.
  destruct (TenantCacheService.get identifier (clock rt) (cacheService rt))
    as [found service] eqn:Hget.
  simpl in Hmiss, Hmode, Httl. subst found. simpl.
  rewrite Hnetwork. simpl. rewrite Herror, Htenant. simpl.
  eexists. eexists. split; [reflexivity|]. simpl.
  split; [by rewrite <- !app_assoc|].
  rewrite (get_after_set service identifier fetched (clock rt) later);
    [|by rewrite Hmode | rewrite Hmode, Httl; exact Hfresh].
  simpl. split; [reflexivity|]. simpl. by rewrite <- !app_assoc.
Qed.

(** X19: with the cache disabled nothing is kept: every request with an
    identifier goes to the fetch, the outcome of [resolveTenant] is the
    tenant the fetch returned (or [null] when it failed), and the cache
    service is left exactly as it was. *)
Theorem disabled_cache_always_fetches (req : SSRRequest) (rt : Runtime)
    (logs : list LogEntry) (trace : list Call) (identifier : string) :
  TenantResolver.extractIdentifier resolver req = Some identifier ->
  identifier <> "" ->
  TenantCacheService.mode (cacheService rt) = Disabled ->
  exists found w',
    resolveTenant (wired resolver) config req (mkWorld rt logs trace)
    = (Normal found, w')
    /\ CalledFetch identifier ∈ drop (List.length trace) (calls w')
    /\ cacheService (env w') = cacheService rt
    /\ found = match network rt identifier with
               | Normal result =>
                   match resultError result with
                   | Some _ => None
                   | None => resultTenant result
                   end
               | Throw _ => None
               end.
Proof.
  intros Hextract Hne Hoff.
  unfold resolveTenant, tryCatch, bind, invoke, log, ret, now, wired. simpl.
  rewrite Hextract. simpl. rewrite (truthy_string_true _ Hne). simpl.
  unfold TenantCacheService.get. rewrite Hoff. simpl.
  destruct (network rt identifier) as [result|thrown]; simpl.
  - destruct (resultError result); simpl.
    + eexists. eexists. split; [reflexivity|]. simpl.
      rewrite <- !app_assoc, drop_app_length. simpl.
      rewrite !elem_of_cons. split; [do 2 right; by left | by split].
    + destruct (resultTenant result) as [fetched|]; simpl.
      * unfold TenantCacheService.set. rewrite Hoff.
        eexists. eexists. split; [reflexivity|]. simpl.
        rewrite <- !app_assoc, drop_app_length. simpl.
        rewrite !elem_of_cons. split; [do 2 right; by left|].
        split; [by destruct rt | done].
      * eexists. eexists. split; [reflexivity|]. simpl.
        rewrite <- !app_assoc, drop_app_length. simpl.
        rewrite !elem_of_cons. split; [do 2 right; by left | by split].
  - eexists. eexists. split; [reflexivity|]. simpl.
    rewrite <- !app_assoc, drop_app_length. simpl.
    rewrite !elem_of_cons. split; [do 2 right; by left | by split].
Qed.

End Wired.

Section WiredFetch.

Import TenantRequestHooks.

Variable resolver : TenantResolver.t.
Variable config : TenantRequestHooksConfig.

(** X13: a backend that cannot be reached costs the request its tenant
    and nothing else: when the lookup misses and the request of
    [resolveTenantByIdentifier] throws, [resolveTenant] returns [null],
    logs the failure with the error's message (a fixed message when what
    was thrown is not an error), and calls no [cache.set], so that the
    next request fetches again. The request carried the identifier in the
    [X-Tenant-Override] header. *)
Theorem unreachable_backend_is_not_cached (req : SSRRequest)
    (axiosGet : AxiosRequest -> Completion TenantBody)
    (service : TenantCacheService.t) (time : Z)
    (logs : list LogEntry) (trace : list Call)
    (identifier : string) (thrown : Thrown) :
  TenantResolver.extractIdentifier resolver req = Some identifier ->
  identifier <> "" ->
  fst (TenantCacheService.get identifier time service) = None ->
  axiosGet {| axiosUrl := protectedUrl resolver identifier;
              axiosHeaders := [("X-Tenant-Override", identifier)] |}
  = Throw thrown ->
  exists w',
    resolveTenant (wired resolver) config req
      (mkWorld (runtimeOver resolver axiosGet service time) logs trace)
    = (Normal None, w')
    /\ calls w' = (trace ++ [CalledExtract; CalledCacheGet identifier;
                             CalledFetch identifier])%list
    /\ cacheService (env w') = snd (TenantCacheService.get identifier time service)
    /\ logged w'
       = (logs ++ [{| level := LogError;
                      text := "Tenant API resolution failed";
                      context :=
                        [("identifier", identifier);
                         ("error",
                          match thrown with
                          | ThrownError e => message e
                          | ThrownValue _ => "Unknown error during tenant resolution"
                          end)] |}])%list.
Proof.
  intros Hextract Hne Hmiss Hthrown.
  unfold resolveTenant, tryCatch, bind, invoke, log, ret, now, wired, runtimeOver.
  simpl. rewrite Hextract. simpl. rewrite (truthy_string_true _ Hne). simpl.
  destruct (TenantCacheService.get identifier time service) as [found service'].
  simpl in Hmiss. subst found. simpl.
  unfold ResolverFetch.resolveTenantByIdentifier. rewrite Hthrown.
  destruct thrown as [e|v]; simpl;
    (eexists; split; [reflexivity|]; simpl; by rewrite <- !app_assoc).
Qed.

End WiredFetch.

(** ** deepMerge *)

Section DeepMerge.

Implicit Types (target source : gmap string JsValue) (key : string).

Lemma assignProp_lookup (obj : gmap string JsValue) key value k :
  assignProp obj key value !! k
  = if decide (k = key)
    then (if settable obj key then Some value else None)
    else obj !! k.
Proof.
  unfold assignProp, settable.
  destruct (String.eqb_spec key "__proto__") as [-> | Hkey]; simpl.
  - destruct (obj !! "__proto__") eqn:Hown.
    + rewrite bool_decide_true by eauto.
      case_decide; [subst; by rewrite lookup_insert_eq | by rewrite lookup_insert_ne].
    + rewrite bool_decide_false by (intros [? ?]; congruence).
      case_decide; [by subst | done].
  - case_decide; [subst; by rewrite lookup_insert_eq | by rewrite lookup_insert_ne].
Qed.

(** What [deepMerge] leaves under one key. *)
Lemma deepMerge_lookup target source key :
  deepMerge target source !! key
  = match source !! key with
    | Some sourceValue =>
        if settable target key
        then Some (mergedValue (JObj target) key sourceValue)
        else None
    | None => target !! key
    end.
Proof.
  unfold deepMerge. cbn [deepMergeIn ownProps isObject]. revert key.
  apply (map_fold_weak_ind (fun output entries =>
    forall key,
      output !! key
      = match entries !! key with
        | Some sourceValue =>
            if settable target key
            then Some (mergedValue (JObj target) key sourceValue)
            else None
        | None => target !! key
        end)).
  - intros key. by rewrite lookup_empty.
  - intros k sourceValue entries output Hfresh IH.
    assert (Hstep : forall body,
      body = assignProp output k (mergedValue (JObj target) k sourceValue) ->
      forall key,
        body !! key
        = match <[k := sourceValue]> entries !! key with
          | Some sourceValue =>
              if settable target key
              then Some (mergedValue (JObj target) key sourceValue)
              else None
          | None => target !! key
          end).
    { intros body -> key. rewrite assignProp_lookup.
      assert (Hset : settable output k = settable target k).
      { unfold settable. by rewrite (IH k), Hfresh. }
      case_decide as Hk.
      - subst. by rewrite lookup_insert_eq, Hset.
      - rewrite lookup_insert_ne by done. apply IH. }
    apply Hstep. unfold mergedValue.
    destruct (isObject sourceValue); [|done].
    by destruct (hasIn (JObj target) k).
Qed.

Lemma settable_own target key value :
  target !! key = Some value -> settable target key = true.
Proof.
  intros Hown. unfold settable. rewrite bool_decide_true by eauto.
  apply orb_true_r.
Qed.

Lemma settable_other target key : key <> "__proto__" -> settable target key = true.
Proof.
  intros Hkey. unfold settable. by destruct (String.eqb_spec key "__proto__").
Qed.

(** X20: what [deepMerge] does key by key. A key only the target has is
    kept. A value of the source that is not an object replaces the
    target's. An object of the source is taken as it is when the key is
    not in the target, and merged into the target's object when the
    target has one; over a target value that is not an object, the
    source's object is dropped and the key is left with the own properties
    of the target's value (none for a number, a boolean or [null]). The
    target's value is read through its prototype: under a key that names a
    method of [Object.prototype] and that the target does not have, an
    object of the source is dropped for an empty object. And the key
    [__proto__] is written only when the target has it as an own
    property. *)
Theorem deepMerge_by_key target source key :
  (source !! key = None -> deepMerge target source !! key = target !! key)
  /\ (forall value, source !! key = Some value -> isObject value = false ->
      settable target key = true ->
      deepMerge target source !! key = Some value)
  /\ (forall value, source !! key = Some value -> isObject value = true ->
      hasIn (JObj target) key = false ->
      deepMerge target source !! key = Some value)
  /\ (forall sourceChild targetChild,
        source !! key = Some (JObj sourceChild) ->
        target !! key = Some (JObj targetChild) ->
        deepMerge target source !! key
        = Some (JObj (deepMerge targetChild sourceChild)))
  /\ (forall value targetValue,
        source !! key = Some value -> isObject value = true ->
        target !! key = Some targetValue ->
        isObject targetValue = false ->
        deepMerge target source !! key = Some (JObj (ownProps targetValue)))
  /\ (forall value,
        source !! key = Some value -> isObject value = true ->
        target !! key = None -> key ∈ prototypeMethods ->
        deepMerge target source !! key = Some (JObj ∅))
  /\ (forall value,
        source !! key = Some value -> key = "__proto__" ->
        target !! key = None ->
        deepMerge target source !! key = None).
Proof.
  rewrite deepMerge_lookup. unfold mergedValue. repeat split.
  - by intros ->.
  - intros value -> Hvalue ->. by rewrite Hvalue.
  - intros value -> Hvalue Hin. rewrite Hin, andb_false_r.
    rewrite settable_other; [done|]. intros ->.
    cbn [hasIn] in Hin. change (isInherited "__proto__") with true in Hin.
    by rewrite orb_true_r in Hin.
  - intros sourceChild targetChild -> Hown.
    rewrite (settable_own _ _ _ Hown). cbn [isObject hasIn readFrom].
    rewrite Hown. by rewrite bool_decide_true by eauto.
  - intros value targetValue -> Hvalue Hown Hleaf.
    rewrite (settable_own _ _ _ Hown), Hvalue. cbn [hasIn readFrom].
    rewrite Hown. rewrite bool_decide_true by eauto. cbn [andb orb].
    destruct value as [| | | | | |sourceChild| |]; try discriminate;
      by destruct targetValue.
  - intros value -> Hvalue Hnone Hmethod.
    assert (Hkey : key <> "__proto__").
    { intros ->. by apply (bool_decide_pack _) in Hmethod. }
    rewrite settable_other by done. rewrite Hvalue. cbn [hasIn readFrom].
    rewrite Hnone. unfold isInherited. rewrite (bool_decide_true _ Hmethod).
    rewrite orb_true_r. cbn [andb].
    destruct (String.eqb_spec key "__proto__"); [done|].
    unfold prototypeMember. rewrite (bool_decide_true _ Hmethod).
    destruct value; try discriminate; by destruct (String.eqb key "constructor").
  - intros value -> -> Hnone. unfold settable. by rewrite Hnone.
Qed.

Lemma plainData_child (props : gmap string JsValue) key child :
  plainData (JObj props) = true -> props !! key = Some child ->
  plainData child = true.
Proof.
  cbn [plainData]. revert key child.
  apply (map_fold_weak_ind (fun plain (entries : gmap string JsValue) =>
    forall key child, plain = true -> entries !! key = Some child ->
                      plainData child = true)).
  - intros key child _. by rewrite lookup_empty.
  - intros k v entries plain Hfresh IH key child Hplain.
    apply andb_true_iff in Hplain as [Hv Hrest].
    destruct (decide (k = key)) as [-> | Hne].
    + rewrite lookup_insert_eq. by intros [= <-].
    + rewrite lookup_insert_ne by done. by apply IH.
Qed.

Lemma deepMerge_self_tree :
  forall target, plainData (JObj target) = true -> deepMerge target target = target.
Proof.
  intros target. induction target as [target IH] using object_induction.
  intros Hplain. apply map_eq. intros key. rewrite deepMerge_lookup.
  destruct (target !! key) as [value|] eqn:Hkey; [|done].
  rewrite (settable_own _ _ _ Hkey). unfold mergedValue. cbn [hasIn readFrom].
  rewrite Hkey. rewrite bool_decide_true by eauto. cbn [orb]. rewrite andb_true_r.
  pose proof (plainData_child _ _ _ Hplain Hkey) as Hchild.
  destruct value as [| | | | | |child| |]; try done.
  cbn [isObject].
  change (deepMergeIn (JObj child) (JObj child)) with (deepMerge child child).
  by rewrite (IH key child Hkey Hchild).
Qed.

(** X21: the neutral cases of [deepMerge]. Merging an empty source
    changes nothing. Merging into an empty target gives the source,
    provided no key of the source is a name that [Object.prototype]
    defines (under such a key the empty target has a member to merge
    into). Merging plain data with itself gives it back. *)
Theorem deepMerge_neutral target :
  deepMerge target ∅ = target
  /\ ((forall key, is_Some (target !! key) -> isInherited key = false) ->
      deepMerge ∅ target = target)
  /\ (plainData (JObj target) = true -> deepMerge target target = target).
Proof.
  split; [|split].
  - apply map_eq. intros key. by rewrite deepMerge_lookup, lookup_empty.
  - intros Hkeys. apply map_eq. intros key. rewrite deepMerge_lookup, lookup_empty.
    destruct (target !! key) as [value|] eqn:Hkey; [|done].
    assert (Hfree : isInherited key = false) by (apply Hkeys; eauto).
    unfold mergedValue. cbn [hasIn]. rewrite lookup_empty.
    rewrite bool_decide_false by (intros [? ?]; congruence).
    cbn [orb]. rewrite Hfree, andb_false_r.
    rewrite settable_other; [done|]. by intros ->.
  - apply deepMerge_self_tree.
Qed.

End DeepMerge.

(** ** The merge of a resolved tenant *)

Section DefaultMerge.

Implicit Types (baseConfig tenantConfig merged : gmap string JsValue).

Lemma copyDefined_cons (f : string) (fields : list string) (source holder : JsValue) :
  copyDefined (f :: fields) source holder
  = if isDefined (propOf source f)
    then match assign holder f (propOf source f) with
         | Normal holder' => copyDefined fields source holder'
         | Throw thrown => Throw thrown
         end
    else copyDefined fields source holder.
Proof. cbn [copyDefined]. by destruct (propOf source f). Qed.

Lemma copyDefined_fields (fields : list string) (source : JsValue) :
  forall holder holder',
    copyDefined fields source holder = Normal holder' ->
    forall field,
      propOf holder' field
      = if bool_decide (field ∈ fields) && isDefined (propOf source field)
        then propOf source field
        else propOf holder field.
Proof.
  induction fields as [|f fields IH]; intros holder holder' Hcopy field.
  - injection Hcopy as <-. done.
  - rewrite copyDefined_cons in Hcopy.
    assert (Hmember : field <> f ->
      bool_decide (field ∈ f :: fields) = bool_decide (field ∈ fields)).
    { intros Hne. apply bool_decide_ext. rewrite elem_of_cons. intuition. }
    destruct (isDefined (propOf source f)) eqn:Hdefined.
    + destruct holder as [| | | | | |props| |]; try discriminate.
      cbn [assign] in Hcopy. rewrite (IH _ _ Hcopy field).
      destruct (decide (field = f)) as [-> | Hne].
      * rewrite Hdefined, andb_true_r.
        rewrite (bool_decide_true (f ∈ f :: fields)) by (by left).
        destruct (bool_decide (f ∈ fields)); [done|].
        unfold propOf at 1, getProp. by rewrite lookup_insert_eq.
      * rewrite (Hmember Hne). destruct (_ && _); [done|].
        unfold propOf, getProp. by rewrite lookup_insert_ne.
    + rewrite (IH _ _ Hcopy field).
      destruct (decide (field = f)) as [-> | Hne].
      * by rewrite Hdefined, !andb_false_r.
      * by rewrite (Hmember Hne).
Qed.

Lemma mergeSection_result name initial fields tenantConfig baseConfig merged :
  mergeSection name initial fields tenantConfig baseConfig = Normal merged ->
  (forall key, key <> name -> merged !! key = baseConfig !! key)
  /\ (forall field,
        propOf (getProp merged name) field
        = mergedField name initial fields tenantConfig baseConfig field)
  /\ (truthy (getProp tenantConfig name) = false -> merged = baseConfig).
Proof.
  unfold mergeSection, mergedField.
  destruct (truthy (getProp tenantConfig name)) eqn:Hsource; cbn [andb].
  2: { intros Hmerged; injection Hmerged as <-. done. }
  destruct (copyDefined fields _ _) as [section|] eqn:Hcopy; [|done].
  intros Hmerged; injection Hmerged as <-.
  split; [|split; [|done]].
  - intros key Hne. rewrite lookup_insert_ne by done.
    destruct (truthy (getProp baseConfig name)); [done|].
    by rewrite lookup_insert_ne.
  - intros field. unfold getProp at 1. rewrite lookup_insert_eq.
    cbn [default from_option id].
    rewrite (copyDefined_fields _ _ _ _ Hcopy field).
    destruct (truthy (getProp baseConfig name)); cbn [negb].
    + done.
    + unfold getProp at 3. by rewrite lookup_insert_eq.
Qed.

(** X22: the default merge writes only the listed fields of [app] and
    [frontend]: every other top-level key of the base is left as it was,
    and inside the two sections a field holds the tenant's value only when
    it is a listed field that the tenant config defines; any other field,
    listed or not, keeps what the base held (or the section's initial
    value when the base had no such section). *)
Theorem default_merge_scope baseConfig tenantConfig merged :
  defaultMergeTenantConfig baseConfig tenantConfig = Normal merged ->
  (forall key, key <> "app" -> key <> "frontend" -> merged !! key = baseConfig !! key)
  /\ (forall field,
        propOf (getProp merged "app") field
        = mergedField "app" {[ "name" := JStr ""; "url" := JStr "" ]} appFields
            tenantConfig baseConfig field)
  /\ (forall field,
        propOf (getProp merged "frontend") field
        = mergedField "frontend" {[ "url" := JStr "" ]} frontendFields
            tenantConfig baseConfig field).
Proof.
  unfold defaultMergeTenantConfig.
  destruct (mergeSection "app" _ _ _ _) as [afterApp|] eqn:Happ; [|done].
  intros Hfrontend.
  apply mergeSection_result in Happ as (HappOther & HappField & _).
  apply mergeSection_result in Hfrontend as (HfrontOther & HfrontField & _).
  split; [|split].
  - intros key Hnot1 Hnot2. by rewrite HfrontOther, HappOther.
  - intros field. unfold getProp at 1. rewrite HfrontOther by done.
    apply HappField.
  - intros field. rewrite HfrontField. unfold mergedField, getProp.
    by rewrite (HappOther "frontend").
Qed.

End DefaultMerge.

Section PublicConfig.

Context {Env : Type}.
Implicit Types (w : World Env) (tenant : Tenant).

Lemma extractPublicTenantConfig_runs tenant w :
  let visibility := getProp (tenantConfig tenant) "__visibility" in
  exists public w',
    MergeStage.extractPublicTenantConfig tenant w = (Normal public, w')
    /\ env w' = env w /\ calls w' = calls w
    /\ (truthy visibility && (0 <? size (ownProps visibility))%nat = true ->
        w' = w
        /\ public = filterByVisibilityKeys Public (ownProps visibility)
                      (JObj (delete "__visibility" (tenantConfig tenant))))
    /\ (truthy visibility && (0 <? size (ownProps visibility))%nat = false ->
        public = ∅ /\ List.length (logged w') = S (List.length (logged w))).
Proof.
  intros visibility. unfold MergeStage.extractPublicTenantConfig. fold visibility.
  destruct (truthy visibility && (0 <? size (ownProps visibility))%nat) eqn:Hmeta.
  - unfold MergeStage.lift, filterPublicConfig.
    apply andb_true_iff in Hmeta as [_ Hsize].
    destruct (Nat.eqb_spec (size (ownProps visibility)) 0) as [Hzero|_].
    { rewrite Hzero in Hsize. discriminate. }
    eexists. eexists. split; [reflexivity|]. by repeat split.
  - unfold bind, TenantRequestHooks.log, ret. simpl.
    eexists. eexists. split; [reflexivity|]. simpl.
    repeat split; try done. rewrite length_app. simpl. lia.
Qed.

(** X23: the public config of a tenant is always produced, never thrown:
    it holds only keys that the tenant's [__visibility] tree names, it
    never holds the tree itself (under [__visibility] there is nothing, or
    [null]), and without a tree, or with an empty one, it is empty and a
    warning is logged. *)
Theorem public_config_hides_metadata tenant w :
  let visibility := getProp (tenantConfig tenant) "__visibility" in
  exists public w',
    MergeStage.extractPublicTenantConfig tenant w = (Normal public, w')
    /\ (forall key, is_Some (public !! key) -> is_Some (ownProps visibility !! key))
    /\ (public !! "__visibility" = None \/ public !! "__visibility" = Some JNull)
    /\ (truthy visibility = false \/ ownProps visibility = ∅ ->
        public = ∅ /\ List.length (logged w') = S (List.length (logged w))).
Proof.
  intros visibility.
  destruct (extractPublicTenantConfig_runs tenant w)
    as (public & w' & Hrun & _ & _ & Hwith & Hwithout).
  fold visibility in Hwith, Hwithout.
  exists public, w'. split; [exact Hrun|].
  destruct (truthy visibility && (0 <? size (ownProps visibility))%nat) eqn:Hmeta.
  - destruct (Hwith eq_refl) as [_ ->]. split; [|split].
    + intros key. rewrite filterByVisibilityKeys_lookup.
      destruct (ownProps visibility !! key); [by eauto | by intros [? ?]].
    + rewrite filterByVisibilityKeys_lookup.
      destruct (ownProps visibility !! "__visibility") as [visValue|]; [|by left].
      cbn [mbind option_bind]. unfold filteredEntry. cbn [readFrom].
      rewrite lookup_delete_eq.
      change (String.eqb "__visibility" "__proto__") with false. cbv iota.
      change (prototypeMember "__visibility") with JUndefined.
      cbn [isObject nullish].
      destruct (isObject visValue); [by left|].
      destruct (isVisibilityAllowed _ _); by eauto.
    + apply andb_true_iff in Hmeta as [Htruthy Hsize].
      intros [Hfalsy | Hempty]; [congruence|].
      rewrite Hempty, map_size_empty in Hsize. discriminate.
  - destruct (Hwithout eq_refl) as [-> Hlogged]. split; [|split].
    + intros key. rewrite lookup_empty. by intros [? ?].
    + by left.
    + done.
Qed.

End PublicConfig.

Section PayloadAndContext.

Context {Env : Type}.
Variable deps : Collaborators Env.
Variable mergeTenantConfig : option MergeHandler.

Implicit Types (w : World Env) (tenant : Tenant) (req : SSRRequest).
Implicit Types (bag config : gmap string JsValue).

Lemma getProp_insert_eq config key (value : JsValue) :
  getProp (<[key := value]> config) key = value.
Proof. unfold getProp. by rewrite lookup_insert_eq. Qed.

Lemma getProp_insert_ne config key other (value : JsValue) :
  key <> other -> getProp (<[key := value]> config) other = getProp config other.
Proof. intros Hne. unfold getProp. by rewrite lookup_insert_ne. Qed.

Lemma stripSessionCookie_result config :
  truthy (propOf (getProp (MergeStage.stripSessionCookie config) "session") "cookie")
  = false
  /\ (forall key, key <> "session" ->
      MergeStage.stripSessionCookie config !! key = config !! key)
  /\ (forall field, field <> "cookie" ->
      propOf (getProp (MergeStage.stripSessionCookie config) "session") field
      = propOf (getProp config "session") field).
Proof.
  unfold MergeStage.stripSessionCookie.
  destruct (getProp config "session") as [| | | | | |session| |] eqn:Hsession;
    try (rewrite Hsession; by repeat split).
  destruct (truthy (getProp session "cookie")) eqn:Hcookie.
  - rewrite !getProp_insert_eq. split; [|split].
    + unfold propOf, getProp. by rewrite lookup_delete_eq.
    + intros key Hne. by rewrite lookup_insert_ne.
    + intros field Hne. unfold propOf, getProp. by rewrite lookup_delete_ne.
  - rewrite Hsession. by repeat split.
Qed.

Lemma stampTrace_result tenant config stamped :
  MergeStage.stampTrace tenant config = Normal stamped ->
  (forall key, key <> "trace" -> stamped !! key = config !! key)
  /\ (truthy (getProp stamped "trace") = true ->
      propOf (getProp stamped "trace") "tenant" = JStr (tenantId tenant)).
Proof.
  unfold MergeStage.stampTrace.
  destruct (truthy (getProp config "trace")) eqn:Htrace.
  - destruct (getProp config "trace") as [| | | | | |trace| |]; try discriminate.
    cbn [assign]. intros Hstamped; injection Hstamped as <-. split.
    + intros key Hne. by rewrite lookup_insert_ne.
    + intros _. rewrite getProp_insert_eq. unfold propOf.
      by rewrite getProp_insert_eq.
  - intros Hstamped; injection Hstamped as <-. split; [done | congruence].
Qed.


End PayloadAndContext.

Section ServerContext.

Context {Env : Type}.
Variable deps : Collaborators Env.
Variable mergeTenantConfig : option MergeHandler.

Implicit Types (w : World Env) (tenant : Tenant) (req : SSRRequest).
Implicit Types (config : gmap string JsValue).

Lemma ensureSession_result (config : JsValue) ensured :
  MergeStage.ensureSession config = Normal ensured ->
  truthy (propOf ensured "session") = true
  /\ (truthy (propOf config "session") = true -> ensured = config)
  /\ (forall key, key <> "session" -> propOf ensured key = propOf config key).
Proof.
  unfold MergeStage.ensureSession.
  destruct (truthy (propOf config "session")) eqn:Hsession.
  - intros Hensured; injection Hensured as <-. by repeat split.
  - destruct config as [| | | | | |props| |]; try discriminate.
    cbn [assign]. intros Hensured; injection Hensured as <-.
    split; [|split; [done|]].
    + unfold propOf. by rewrite getProp_insert_eq.
    + intros key Hne. unfold propOf. rewrite getProp_insert_ne; [done | congruence].
Qed.

Lemma assignInSession_result (config : JsValue) field value assigned :
  MergeStage.assignInSession config field value = Normal assigned ->
  propOf (propOf assigned "session") field = value
  /\ (forall other, other <> field ->
      propOf (propOf assigned "session") other = propOf (propOf config "session") other)
  /\ (forall key, key <> "session" -> propOf assigned key = propOf config key)
  /\ exists props, assigned = JObj props.
Proof.
  unfold MergeStage.assignInSession.
  destruct (propOf config "session") as [| | | | | |session| |] eqn:Hsession;
    try discriminate.
  cbn [assign]. destruct config as [| | | | | |props| |]; try discriminate.
  intros Hassigned; injection Hassigned as <-.
  unfold propOf. rewrite !getProp_insert_eq. repeat split.
  - intros other Hne. rewrite getProp_insert_ne; [done | congruence].
  - intros key Hne. rewrite getProp_insert_ne; [done | congruence].
  - by eauto.
Qed.

Lemma buildSsrContext_runs req tenant w req' w' :
  MergeStage.buildSsrContext deps mergeTenantConfig req tenant w = (Normal req', w') ->
  exists ctx config,
    quvelContext req' = Some ctx
    /\ ctxTenant ctx = Val tenant
    /\ appConfig ctx = Some config
    /\ propOf (getProp config "session") "cookie"
       = createTenantSessionCookieName (Val (asPublicTenantData tenant))
    /\ propOf (getProp config "session") "xsrf_cookie"
       = createTenantXsrfCookieName (Val (asPublicTenantData tenant))
    /\ (forall old, quvelContext req = Some old -> startTime ctx = startTime old)
    /\ headers req' = headers req /\ hostname req' = hostname req
    /\ path req' = path req /\ requestUrl req' = requestUrl req.
Proof.
  unfold MergeStage.buildSsrContext, bind, ret.
  destruct (MergeStage.ensureQuvelContext deps req w) as [[ctx|] w0] eqn:Hctx; [|done].
  destruct (extractPublicTenantConfig_runs tenant w0) as (public & w1 & Hrun & _).
  rewrite Hrun. unfold MergeStage.lift.
  destruct (MergeStage.mergeHandler mergeTenantConfig _ public) as [merged|]; [|done].
  destruct (MergeStage.ensureSession (JObj merged)) as [config1|]; [|done].
  destruct (MergeStage.assignInSession config1 "cookie" _) as [config2|] eqn:Hcookie;
    [|done].
  destruct (MergeStage.assignInSession config2 "xsrf_cookie" _) as [config3|] eqn:Hxsrf;
    [|done].
  intros Hdone; injection Hdone as <- <-.
  apply assignInSession_result in Hcookie as (Hcookie & _).
  apply assignInSession_result in Hxsrf as (Hxsrf & Hkept & _ & config & ->).
  eexists. exists config. cbn [quvelContext TenantRequestHooks.withContext].
  split; [reflexivity|]. cbn [ctxTenant appConfig ownProps].
  repeat split; try done.
  - rewrite <- Hcookie. by apply (Hkept "cookie").
  - intros old Hold. unfold MergeStage.ensureQuvelContext in Hctx.
    rewrite Hold in Hctx. by injection Hctx as <- <-.
Qed.

(** X25: what the server-side context holds once [buildSsrContext]
    completes, whatever merge handler is configured (one that leaves the
    tenant config it is handed alone): the request has a
    context whose tenant is the resolved tenant and whose app config
    carries, under [session], the session and XSRF cookie names of that
    tenant; a context the request already had keeps its start time, and
    nothing else of the request changes. *)
Theorem server_context_names_the_cookies req tenant w req' w' :
  MergeStage.buildSsrContext deps mergeTenantConfig req tenant w = (Normal req', w') ->
  exists ctx config,
    quvelContext req' = Some ctx
    /\ ctxTenant ctx = Val tenant
    /\ appConfig ctx = Some config
    /\ propOf (getProp config "session") "cookie"
       = createTenantSessionCookieName (Val (asPublicTenantData tenant))
    /\ propOf (getProp config "session") "xsrf_cookie"
       = createTenantXsrfCookieName (Val (asPublicTenantData tenant))
    /\ (forall old, quvelContext req = Some old -> startTime ctx = startTime old)
    /\ headers req' = headers req /\ hostname req' = hostname req
    /\ path req' = path req /\ requestUrl req' = requestUrl req.
Proof. apply buildSsrContext_runs. Qed.

End ServerContext.

Section EndToEnd.

Context {Env : Type}.
Variable deps : Collaborators Env.
Variable config : TenantRequestHooksConfig.

Lemma xsrf_name_is_truthy (tenant : Nullable PublicTenantData) :
  truthy (createTenantXsrfCookieName tenant) = true.
Proof.
  unfold createTenantXsrfCookieName.
  destruct (truthy (optGet _ "name")) eqn:Hcustom; [done|].
  by destruct (tenantIdOf tenant).
Qed.

Lemma defaultMerge_keeps_other_keys (baseConfig tenantConfig merged : gmap string JsValue) key :
  defaultMergeTenantConfig baseConfig tenantConfig = Normal merged ->
  key <> "app" -> key <> "frontend" -> merged !! key = baseConfig !! key.
Proof.
  unfold defaultMergeTenantConfig.
  destruct (mergeSection "app" _ _ _ _) as [afterApp|] eqn:Happ; [|done].
  intros Hfrontend Hnot1 Hnot2.
  apply mergeSection_result in Happ as (HappOther & _).
  apply mergeSection_result in Hfrontend as (HfrontOther & _).
  by rewrite HfrontOther, HappOther.
Qed.

(** X26: with the default merge, and the payload and the context's app
    config being two objects, what a resolved tenant leaves with the
    client: when the pre-render hook completes for a request that resolves
    to a tenant, the payload's session names the tenant's XSRF cookie, as
    the server-side context does, and carries no session cookie name,
    which only the server-side context holds. *)
Theorem client_gets_xsrf_cookie_only (req : SSRRequest) (bag : gmap string JsValue)
    (w w1 w' : World Env) (tenant : Tenant) (req' : SSRRequest)
    (bag' : gmap string JsValue) :
  TenantRequestHooks.resolveTenant deps config req w = (Normal (Some tenant), w1) ->
  TenantRequestHooks.enrichWindowBag deps config
    (MergeStage.buildSsrContext deps None) (MergeStage.buildPublicConfig None)
    req bag w
  = (Normal (req', bag'), w') ->
  exists payload,
    bag' !! "__APP_CONFIG__" = Some (JObj payload)
    /\ propOf (getProp payload "session") "xsrf_cookie"
       = createTenantXsrfCookieName (Val (asPublicTenantData tenant))
    /\ truthy (propOf (getProp payload "session") "cookie") = false
    /\ propOf (MergeStage.contextSession req') "cookie"
       = createTenantSessionCookieName (Val (asPublicTenantData tenant)).
Proof.
  intros Hresolved. unfold TenantRequestHooks.enrichWindowBag, bind at 1.
  rewrite Hresolved. unfold bind at 1.
  destruct (MergeStage.buildSsrContext deps None req tenant w1)
    as [[req1|] w2] eqn:Hcontext; [|done].
  apply buildSsrContext_runs in Hcontext
    as (ctx & ctxConfig & Hctx & _ & Happ & Hcookie & Hxsrf & _).
  assert (Hsession : MergeStage.contextSession req1 = getProp ctxConfig "session").
  { unfold MergeStage.contextSession. by rewrite Hctx, Happ. }
  unfold bind at 1.
  destruct (MergeStage.buildPublicConfig None req1 tenant bag w2)
    as [[bag1|] w3] eqn:Hpayload; [|done].
  unfold ret. intros Hdone; injection Hdone as <- <- <-.
  revert Hpayload.
  unfold MergeStage.buildPublicConfig, bind, ret.
  unfold MergeStage.lift at 1.
  destruct (MergeStage.copyXsrfCookie req1 (MergeStage.bagConfig bag))
    as [config1|] eqn:Hcopy; [|done].
  destruct (extractPublicTenantConfig_runs tenant w2) as (public & w4 & Hrun & _).
  rewrite Hrun. unfold MergeStage.lift.
  destruct (MergeStage.mergeInto None config1 public) as [config2|] eqn:Hmerge; [|done].
  destruct (MergeStage.stampTrace tenant _) as [config4|] eqn:Hstamp; [|done].
  intros Hdone; injection Hdone as <- <-.
  assert (Hname : truthy (propOf (getProp ctxConfig "session") "xsrf_cookie") = true)
    by (rewrite Hxsrf; apply xsrf_name_is_truthy).
  assert (Hheld : truthy (getProp ctxConfig "session") = true).
  { destruct (getProp ctxConfig "session"); try done;
      cbn [propOf] in Hname; discriminate. }
  unfold MergeStage.copyXsrfCookie in Hcopy. rewrite Hsession, Hheld in Hcopy.
  destruct (MergeStage.ensureSession (MergeStage.bagConfig bag)) as [ensured|];
    [|done].
  rewrite Hname in Hcopy.
  apply assignInSession_result in Hcopy as (Hcopied & _ & _ & base & ->).
  cbn [MergeStage.mergeInto MergeStage.mergeHandler default from_option id] in Hmerge.
  pose proof (defaultMerge_keeps_other_keys _ _ _ "session" Hmerge) as Hkept.
  apply stampTrace_result in Hstamp as [Hother _].
  destruct (stripSessionCookie_result config4) as (Hnocookie & _ & Hfields).
  eexists. split; [apply lookup_insert_eq|]. split; [|split; [exact Hnocookie|]].
  - rewrite Hfields by done. unfold getProp at 1. rewrite Hother by done.
    rewrite lookup_insert_ne by done. rewrite Hkept by done.
    rewrite <- Hxsrf. exact Hcopied.
  - rewrite Hsession. exact Hcookie.
Qed.

End EndToEnd.

(** ** Instances *)

Lemma get_touches_only_its_key_witness :
  let stored := TenantCacheService.set "acme" sampleTenant 0
                  (TenantCacheService.new Lazy 1 "tenant-info") in
  TenantCacheService.cache (snd (TenantCacheService.get "globex" 5000 stored)) !! "acme"
  = TenantCacheService.cache stored !! "acme".
Proof.
  intros stored.
  apply (proj1 (get_touches_only_its_key stored "globex" 5000 "acme")).
  discriminate.
Defined.

Lemma set_last_write_wins_witness :
  let empty := TenantCacheService.new Lazy 300 "tenant-info" in
  fst (TenantCacheService.get "globex" 7
         (TenantCacheService.set "acme" brandedTenant 5 empty))
  = fst (TenantCacheService.get "globex" 7 empty).
Proof.
  intros empty.
  apply (proj2 (set_last_write_wins empty "acme" sampleTenant brandedTenant 5 7 "globex")).
  discriminate.
Defined.

Lemma removal_is_unconditional_witness :
  let stored := TenantCacheService.set "acme" sampleTenant 0
                  (TenantCacheService.set "globex" brandedTenant 0
                     (TenantCacheService.new Preload 300 "tenant-info")) in
  fst (TenantCacheService.get "globex" 9 (TenantCacheService.delete "acme" stored))
  = fst (TenantCacheService.get "globex" 9 stored).
Proof.
  intros stored.
  apply (proj1 (proj2 (removal_is_unconditional stored "acme" "globex" 9))).
  discriminate.
Defined.

Lemma sweep_is_transparent_witness :
  let stored := TenantCacheService.set "acme" sampleTenant 0
                  (TenantCacheService.new Lazy 1 "tenant-info") in
  fst (TenantCacheService.get "acme" 60000
         (TenantCacheService.cleanupExpired 60000 stored))
  = fst (TenantCacheService.get "acme" 60000 stored).
Proof.
  intros stored.
  apply (proj1 (sweep_is_transparent stored "acme" 60000 60000 eq_refl
                  ltac:(vm_compute; discriminate))).
Defined.

Lemma preload_makes_tenants_readable_witness :
  exists found,
    fst (TenantCacheService.get (preloadKey brandedTenant) 86400000
           (initialize (fun _ => Normal (WrappedTenants [sampleTenant; brandedTenant]))
              (TenantCacheService.new Preload 300 "tenant-info")))
    = Some found
    /\ found ∈ [sampleTenant; brandedTenant]
    /\ preloadKey found = preloadKey brandedTenant.
Proof.
  apply (proj1 (preload_makes_tenants_readable
                  (fun _ => Normal (WrappedTenants [sampleTenant; brandedTenant]))
                  (TenantCacheService.new Preload 300 "tenant-info")
                  brandedTenant 86400000 eq_refl)
           (WrappedTenants [sampleTenant; brandedTenant]) eq_refl).
  simpl. set_solver.
Defined.

Lemma domain_from_header_has_no_port_witness :
  TenantResolver.extractDomain (requestTo "acme.example.com:8443") = "acme.example.com"
  /\ hasChar ":" (TenantResolver.extractDomain (requestTo "acme.example.com:8443")) = false.
Proof.
  destruct (domain_from_header_has_no_port (requestTo "acme.example.com:8443")
              "acme.example.com:8443") as (Hdomain & Hclean & _).
  - discriminate.
  - right. split; [left|]; vm_compute; reflexivity.
  - split; [|exact Hclean]. rewrite Hdomain. vm_compute. reflexivity.
Defined.

Lemma subdomain_is_left_of_base_witness :
  TenantResolver.extractSubdomain (requestTo "eu.acme.example.com") 1 = Some "acme"
  /\ hasChar "." "acme" = false.
Proof.
  destruct (subdomain_is_left_of_base (requestTo "eu.acme.example.com") 1 "acme")
    as [Hiff Hclean].
  assert (Hlabel : TenantResolver.extractSubdomain (requestTo "eu.acme.example.com") 1
                   = Some "acme").
  { apply Hiff. vm_compute. repeat split; (reflexivity || discriminate). }
  split; [exact Hlabel | exact (Hclean Hlabel)].
Defined.

Lemma path_segment_is_clean_witness :
  "dashboard" <> "" /\ hasChar "/" "dashboard" = false /\ 0 <= 1.
Proof.
  apply (path_segment_is_clean
           {| headers := ∅; hostname := "localhost"; path := "//t/dashboard/";
              requestUrl := "/"; quvelContext := None |} 1 "dashboard").
  vm_compute. reflexivity.
Defined.

Lemma no_identifier_no_lookup_witness :
  exists w',
    TenantRequestHooks.resolveTenant (TenantRequestHooks.wired headerResolver)
      renderConfig (requestFor (Some "")) (mkWorld warmRuntime [] [])
    = (Normal None, w')
    /\ env w' = warmRuntime
    /\ calls w' = [CalledExtract].
Proof.
  destruct (no_identifier_no_lookup (TenantRequestHooks.wired headerResolver)
              renderConfig (requestFor (Some "")) (mkWorld warmRuntime [] []))
    as (w' & Hrun & Henv & Hcalls & _).
  - right. left. vm_compute. reflexivity.
  - exists w'. split; [exact Hrun|]. split; [exact Henv | exact Hcalls].
Defined.

Lemma only_fetched_tenants_are_cached_witness :
  let deps := TenantRequestHooks.wired headerResolver in
  let rt := runtimeOver headerResolver acmeBackend
              (TenantCacheService.new Lazy 300 "tenant-info") 5 in
  extractIdentifier deps (requestFor (Some "acme"))
  = Normal (Some "acme")
  /\ exists e1 e2 result,
       resolveTenantByIdentifier deps "acme" e1 = (Normal result, e2)
       /\ resultError result = None
       /\ resultTenant result = Some brandedTenant.
Proof.
  intros deps rt.
  apply (only_fetched_tenants_are_cached deps renderConfig (requestFor (Some "acme"))
           (mkWorld rt [] [])
           (snd (TenantRequestHooks.resolveTenant deps renderConfig
                   (requestFor (Some "acme")) (mkWorld rt [] [])))
           (fst (TenantRequestHooks.resolveTenant deps renderConfig
                   (requestFor (Some "acme")) (mkWorld rt [] [])))
           "acme" brandedTenant).
  - by destruct (TenantRequestHooks.resolveTenant _ _ _ _).
  - vm_compute. do 3 right. left.
Defined.

Lemma resolved_tenant_has_a_source_witness :
  exists identifier,
    extractIdentifier (TenantRequestHooks.wired headerResolver) (requestFor (Some "acme"))
    = Normal (Some identifier)
    /\ identifier <> "".
Proof.
  destruct (resolved_tenant_has_a_source (TenantRequestHooks.wired headerResolver)
              renderConfig (requestFor (Some "acme")) (mkWorld warmRuntime [] [])
              (snd (TenantRequestHooks.resolveTenant
                      (TenantRequestHooks.wired headerResolver) renderConfig
                      (requestFor (Some "acme")) (mkWorld warmRuntime [] [])))
              sampleTenant)
    as (identifier & Hextract & Hne & _).
  - vm_compute. reflexivity.
  - exists identifier. by split.
Defined.

Lemma not_found_dispositions_witness :
  let deps := TenantRequestHooks.wired headerResolver in
  let w := mkWorld coldRuntime [] [] in
  fst (TenantRequestHooks.enrichWindowBag deps redirectConfig
         (fun req _ => ret req) (fun _ _ bag => ret bag) (requestFor None) ∅ w)
  = Throw (ThrownError {| message := "Redirecting to tenant not found page";
                          code := Some 302; url := Some "/missing" |}).
Proof.
  intros deps w.
  destruct (not_found_dispositions deps redirectConfig
              (fun req _ => ret req) (fun _ _ bag => ret bag) (requestFor None) ∅ w
              (snd (TenantRequestHooks.resolveTenant deps redirectConfig
                      (requestFor None) w)))
    as (_ & Hredirect & _).
  - vm_compute. reflexivity.
  - by rewrite (Hredirect "/missing" None eq_refl).
Defined.

Lemma fetched_tenant_is_cached_witness :
  let rt := runtimeOver headerResolver acmeBackend
              (TenantCacheService.new Lazy 300 "tenant-info") 5 in
  exists w1 w2,
    TenantRequestHooks.resolveTenant (TenantRequestHooks.wired headerResolver)
      renderConfig (requestFor (Some "acme")) (mkWorld rt [] [])
    = (Normal (Some brandedTenant), w1)
    /\ TenantRequestHooks.resolveTenant (TenantRequestHooks.wired headerResolver)
         renderConfig (requestFor (Some "acme"))
         (mkWorld (atTime 300005 (env w1)) (logged w1) (calls w1))
       = (Normal (Some brandedTenant), w2)
    /\ calls w2 = (calls w1 ++ [CalledExtract; CalledCacheGet "acme"])%list.
Proof.
  intros rt.
  destruct (fetched_tenant_is_cached headerResolver renderConfig
              (requestFor (Some "acme")) rt [] [] "acme"
              {| resultTenant := Some brandedTenant; resultError := None;
                 resultUrl := Some "/tenant-info/protected" |}
              brandedTenant 300005)
    as (w1 & w2 & Hfirst & _ & Hsecond & Hcalls).
  - vm_compute. reflexivity.
  - discriminate.
  - vm_compute. discriminate.
  - vm_compute. reflexivity.
  - vm_compute. reflexivity.
  - reflexivity.
  - reflexivity.
  - intros _. vm_compute. discriminate.
  - exists w1, w2. split; [exact Hfirst|]. split; [exact Hsecond | exact Hcalls].
Defined.

Lemma disabled_cache_always_fetches_witness :
  let rt := runtimeOver headerResolver acmeBackend
              (TenantCacheService.new Disabled 300 "tenant-info") 5 in
  exists found w',
    TenantRequestHooks.resolveTenant (TenantRequestHooks.wired headerResolver)
      renderConfig (requestFor (Some "acme")) (mkWorld rt [] [])
    = (Normal found, w')
    /\ CalledFetch "acme" ∈ calls w'
    /\ TenantRequestHooks.cacheService (env w') = TenantRequestHooks.cacheService rt.
Proof.
  intros rt.
  destruct (disabled_cache_always_fetches headerResolver renderConfig
              (requestFor (Some "acme")) rt [] [] "acme")
    as (found & w' & Hrun & Hfetch & Hcache & _).
  - vm_compute. reflexivity.
  - discriminate.
  - reflexivity.
  - exists found, w'. split; [exact Hrun|]. split; [exact Hfetch | exact Hcache].
Defined.

Lemma unreachable_backend_is_not_cached_witness :
  exists w',
    TenantRequestHooks.resolveTenant (TenantRequestHooks.wired headerResolver)
      renderConfig (requestFor (Some "acme"))
      (mkWorld (runtimeOver headerResolver refusing
                  (TenantCacheService.new Lazy 300 "tenant-info") 5) [] [])
    = (Normal None, w')
    /\ calls w' = [CalledExtract; CalledCacheGet "acme"; CalledFetch "acme"].
Proof.
  destruct (unreachable_backend_is_not_cached headerResolver renderConfig
              (requestFor (Some "acme")) refusing
              (TenantCacheService.new Lazy 300 "tenant-info") 5 [] [] "acme"
              (ThrownError (newError "connect ECONNREFUSED")))
    as (w' & Hrun & Hcalls & _).
  - vm_compute. reflexivity.
  - discriminate.
  - vm_compute. reflexivity.
  - reflexivity.
  - exists w'. split; [exact Hrun | exact Hcalls].
Defined.

Lemma deepMerge_by_key_witness :
  deepMerge {[ "a" := JNum 1 ]} {[ "a" := JObj {[ "b" := JNum 2 ]} ]} !! "a"
  = Some (JObj ∅)
  /\ deepMerge {[ "a" := JNum 1 ]} {[ "b" := JNum 2 ]} !! "a" = Some (JNum 1)
  /\ deepMerge ∅ {[ "toString" := JObj {[ "a" := JNum 1 ]} ]} !! "toString"
     = Some (JObj ∅)
  /\ deepMerge ∅ {[ "__proto__" := JObj {[ "a" := JNum 1 ]} ]} !! "__proto__"
     = None.
Proof.
  split; [|split; [|split]].
  - destruct (deepMerge_by_key {[ "a" := JNum 1 ]}
                {[ "a" := JObj {[ "b" := JNum 2 ]} ]} "a")
      as (_ & _ & _ & _ & Hleaf & _).
    refine (eq_trans (Hleaf (JObj {[ "b" := JNum 2 ]}) (JNum 1) _ _ _ _) _);
      vm_compute; reflexivity.
  - refine (eq_trans
      (proj1 (deepMerge_by_key {[ "a" := JNum 1 ]} {[ "b" := JNum 2 ]} "a") _) _);
      vm_compute; reflexivity.
  - destruct (deepMerge_by_key ∅ {[ "toString" := JObj {[ "a" := JNum 1 ]} ]}
                "toString")
      as (_ & _ & _ & _ & _ & Hmethod & _).
    apply (Hmethod (JObj {[ "a" := JNum 1 ]})).
    + vm_compute. reflexivity.
    + reflexivity.
    + vm_compute. reflexivity.
    + unfold prototypeMethods. set_solver.
  - destruct (deepMerge_by_key ∅ {[ "__proto__" := JObj {[ "a" := JNum 1 ]} ]}
                "__proto__")
      as (_ & _ & _ & _ & _ & _ & Hsetter).
    apply (Hsetter (JObj {[ "a" := JNum 1 ]})).
    + vm_compute. reflexivity.
    + reflexivity.
    + vm_compute. reflexivity.
Defined.

Lemma null_body_is_a_failure_witness :
  fst (preloadTenants (fun _ => Normal NullBody)
         (TenantCacheService.new Preload 300 "tenant-info"))
  = TenantCacheService.new Preload 300 "tenant-info".
Proof.
  apply (proj2 (null_body_is_a_failure headerResolver "acme"
                  (fun _ => Normal NullBody)
                  (TenantCacheService.new Preload 300 "tenant-info"))).
  reflexivity.
Defined.

Lemma deepMerge_neutral_witness :
  deepMerge ∅ {[ "app" := JObj {[ "name" := JStr "Acme" ]} ]}
  = {[ "app" := JObj {[ "name" := JStr "Acme" ]} ]}
  /\ deepMerge {[ "app" := JObj {[ "name" := JStr "Acme" ]} ]}
       {[ "app" := JObj {[ "name" := JStr "Acme" ]} ]}
     = {[ "app" := JObj {[ "name" := JStr "Acme" ]} ]}.
Proof.
  destruct (deepMerge_neutral {[ "app" := JObj {[ "name" := JStr "Acme" ]} ]})
    as (_ & Hempty & Hself).
  split.
  - apply Hempty. intros key [value Hkey].
    destruct (decide (key = "app")) as [-> | Hne]; [reflexivity|].
    by rewrite lookup_singleton_ne in Hkey.
  - apply Hself. vm_compute. reflexivity.
Defined.

Lemma default_merge_scope_witness :
  let baseConfig : gmap string JsValue :=
    {[ "app" := JObj {[ "name" := JStr "Base"; "env" := JStr "production" ]};
       "features" := JBool true ]} in
  let tenantConfig : gmap string JsValue :=
    {[ "app" := JObj {[ "name" := JStr "Acme"; "key" := JStr "s3cret" ]} ]} in
  let merged : gmap string JsValue :=
    {[ "app" := JObj {[ "name" := JStr "Acme"; "env" := JStr "production" ]};
       "features" := JBool true ]} in
  defaultMergeTenantConfig baseConfig tenantConfig = Normal merged
  /\ merged !! "features" = baseConfig !! "features"
  /\ propOf (getProp merged "app") "key"
     = mergedField "app" {[ "name" := JStr ""; "url" := JStr "" ]} appFields
         tenantConfig baseConfig "key".
Proof.
  intros baseConfig tenantConfig merged.
  assert (Hmerged : defaultMergeTenantConfig baseConfig tenantConfig = Normal merged)
    by (vm_compute; reflexivity).
  destruct (default_merge_scope baseConfig tenantConfig merged Hmerged)
    as (Hother & Happ & _).
  split; [exact Hmerged|]. split; [apply Hother; discriminate | apply Happ].
Defined.

Lemma public_config_hides_metadata_witness :
  exists public w',
    MergeStage.extractPublicTenantConfig sampleTenant (mkWorld coldRuntime [] [])
    = (Normal public, w')
    /\ public = ∅
    /\ List.length (logged w') = 1%nat.
Proof.
  destruct (public_config_hides_metadata sampleTenant (mkWorld coldRuntime [] []))
    as (public & w' & Hrun & _ & _ & Hwithout).
  destruct (Hwithout (or_introl eq_refl)) as [Hempty Hlogged].
  exists public, w'. split; [exact Hrun|]. split; [exact Hempty | exact Hlogged].
Defined.


Lemma server_context_names_the_cookies_witness :
  exists req' ctx config,
    fst (MergeStage.buildSsrContext (TenantRequestHooks.wired headerResolver) None
           (requestFor (Some "acme")) brandedTenant (mkWorld coldRuntime [] []))
    = Normal req'
    /\ quvelContext req' = Some ctx
    /\ appConfig ctx = Some config
    /\ propOf (getProp config "session") "cookie"
       = createTenantSessionCookieName (Val (asPublicTenantData brandedTenant)).
Proof.
  destruct (MergeStage.buildSsrContext (TenantRequestHooks.wired headerResolver) None
              (requestFor (Some "acme")) brandedTenant (mkWorld coldRuntime [] []))
    as [[req'|thrown] w'] eqn:Hrun.
  - destruct (server_context_names_the_cookies _ None _ _ _ _ _ Hrun)
      as (ctx & config & Hctx & _ & Happ & Hcookie & _).
    exists req', ctx, config. split; [reflexivity|].
    split; [exact Hctx|]. split; [exact Happ | exact Hcookie].
  - exfalso. vm_compute in Hrun. discriminate.
Defined.

Lemma client_gets_xsrf_cookie_only_witness :
  let deps := TenantRequestHooks.wired headerResolver in
  let w := mkWorld warmRuntime [] [] in
  exists req' bag' payload,
    fst (TenantRequestHooks.enrichWindowBag deps renderConfig
           (MergeStage.buildSsrContext deps None) (MergeStage.buildPublicConfig None)
           (requestFor (Some "acme")) serverBag w)
    = Normal (req', bag')
    /\ bag' !! "__APP_CONFIG__" = Some (JObj payload)
    /\ propOf (getProp payload "session") "xsrf_cookie"
       = createTenantXsrfCookieName (Val (asPublicTenantData sampleTenant))
    /\ truthy (propOf (getProp payload "session") "cookie") = false.
Proof.
  intros deps w.
  destruct (TenantRequestHooks.enrichWindowBag deps renderConfig
              (MergeStage.buildSsrContext deps None) (MergeStage.buildPublicConfig None)
              (requestFor (Some "acme")) serverBag w)
    as [[[req' bag']|thrown] w'] eqn:Hrun.
  - destruct (client_gets_xsrf_cookie_only deps renderConfig
                (requestFor (Some "acme")) serverBag w
                (snd (TenantRequestHooks.resolveTenant deps renderConfig
                        (requestFor (Some "acme")) w))
                w' sampleTenant req' bag')
      as (payload & Hbag & Hxsrf & Hcookie & _).
    + vm_compute. reflexivity.
    + exact Hrun.
    + exists req', bag', payload. split; [reflexivity|].
      split; [exact Hbag|]. split; [exact Hxsrf | exact Hcookie].
  - exfalso. vm_compute in Hrun. discriminate.
Defined.
